(** * nix-alien picker: a shallow embedding of [src/nix_alien/picker.py]

    The module asks a human to pick one string out of a list, through a
    registry of picker presets ([PICKERS]), two strategy executors
    ([_run_pyfzf], [_run_shell]) and a dispatcher ([prompt]).

    Python [str] values are modelled as [string], a character being a code
    point below 256.  Python functions that may raise are modelled in a small
    state-and-exception monad over a [world] that records what the process
    did (subprocess launches, calls of the fzf client, lines printed on
    stderr) and holds the module global [_pyfzf_prompt]. *)

From Stdlib Require Import String Ascii List ZArith Bool Lia DecimalString.
Import ListNotations.
Local Open Scope string_scope.

(** ** Python built-ins used by the module *)

Module Py.

(** Characters the definitions below name. *)
Definition LF : ascii := "010"%char.
Definition CR : ascii := "013"%char.
Definition DQUOTE : ascii := "034"%char.
Definition SQUOTE : ascii := "039"%char.
Definition DOLLAR : ascii := "036"%char.

(** [code c] is the code point of [c]. *)
Definition code (c : ascii) : N := N_of_ascii c.

Definition between (lo hi : N) (c : ascii) : bool :=
  (N.leb lo (code c) && N.leb (code c) hi)%bool.

(** [str.isspace] on one character: the Unicode white space below U+0100,
    which is what [str.strip()] removes. *)
Definition isspace (c : ascii) : bool :=
  (between 9 13 c || between 28 32 c
   || N.eqb (code c) 133 || N.eqb (code c) 160)%bool.

(** [str.lstrip()], [str.rstrip()] and [str.strip()] without argument. *)
Fixpoint lstrip (s : string) : string :=
  match s with
  | EmptyString => EmptyString
  | String c s' => if isspace c then lstrip s' else s
  end.

Fixpoint rstrip (s : string) : string :=
  match s with
  | EmptyString => EmptyString
  | String c s' =>
      match rstrip s' with
      | EmptyString => if isspace c then EmptyString else String c EmptyString
      | r => String c r
      end
  end.

Definition strip (s : string) : string := rstrip (lstrip s).

(** Truth value of a [str]: the empty string is false. *)
Definition truthy (s : string) : bool :=
  match s with
  | EmptyString => false
  | String _ _ => true
  end.

(** [x or y] on strings, and [x or None]. *)
Definition str_or (x y : string) : string := if truthy x then x else y.
Definition or_None (x : string) : option string :=
  if truthy x then Some x else None.

(** [sep.join(l)]. *)
Fixpoint join (sep : string) (l : list string) : string :=
  match l with
  | [] => EmptyString
  | [x] => x
  | x :: rest => x ++ sep ++ join sep rest
  end.

(** [str(n)] for an [int]. *)
Definition str_of_int (n : Z) : string := NilZero.string_of_int (Z.to_int n).

(** [n in l] for a list of [int]. *)
Definition int_in (n : Z) (l : list Z) : bool := existsb (Z.eqb n) l.

(** [d.get(k)] on a dict given as its items in insertion order, and
    [d.keys()]. *)
Fixpoint dict_get {A : Type} (d : list (string * A)) (k : string) : option A :=
  match d with
  | [] => None
  | (k', v) :: d' => if String.eqb k' k then Some v else dict_get d' k
  end.

Definition keys {A : Type} (d : list (string * A)) : list string :=
  map fst d.

(** *** [str.splitlines(keepends=True)] and [textwrap.indent] *)

(** The line boundaries of [str.splitlines] below U+0100: LF, CR, VT, FF,
    FS, GS, RS and NEL; CR followed by LF is one boundary. *)
Definition islinebreak (c : ascii) : bool :=
  (between 10 13 c || between 28 30 c || N.eqb (code c) 133)%bool.

Definition starts_with_LF (s : string) : bool :=
  match s with
  | String c _ => Ascii.eqb c LF
  | EmptyString => false
  end.

Definition cons_to_first (c : ascii) (ls : list string) : list string :=
  match ls with
  | [] => [String c EmptyString]
  | l :: ls' => String c l :: ls'
  end.

Fixpoint splitlines (s : string) : list string :=
  match s with
  | EmptyString => []
  | String c s' =>
      if islinebreak c
      then if (Ascii.eqb c CR && starts_with_LF s')%bool
           then cons_to_first c (splitlines s')
           else String c EmptyString :: splitlines s'
      else cons_to_first c (splitlines s')
  end.

(** [textwrap.indent(text, prefix)]: the prefix goes before every line that
    does not consist solely of white space. *)
Definition indent_line (prefix line : string) : string :=
  if truthy (strip line) then prefix ++ line else line.

Definition indent (text prefix : string) : string :=
  String.concat EmptyString (map (indent_line prefix) (splitlines text)).

(** *** [string.Template.safe_substitute] *)

(** The identifier pattern of [string.Template]: [[_a-z][_a-z0-9]*], ASCII
    only and case insensitive. *)
Definition is_id_start (c : ascii) : bool :=
  (Ascii.eqb c "_" || between 97 122 c || between 65 90 c)%bool.

Definition is_id_char (c : ascii) : bool :=
  (is_id_start c || between 48 57 c)%bool.

Definition starts_with_id (s : string) : bool :=
  match s with
  | String c _ => is_id_start c
  | EmptyString => false
  end.

(** The longest run of identifier characters at the head of [s], and what
    follows it. *)
Fixpoint span_id (s : string) : string * string :=
  match s with
  | EmptyString => (EmptyString, EmptyString)
  | String c s' =>
      if is_id_char c
      then let (name, rest) := span_id s' in (String c name, rest)
      else (EmptyString, s)
  end.

(** What [safe_substitute] does with a named or braced placeholder: the
    mapping's value, or the matched text when the name is not a key. *)
Definition convert (mapping : list (string * string)) (name matched : string)
  : string :=
  match dict_get mapping name with
  | Some v => v
  | None => matched
  end.

(** One match of the template pattern, [rest] being the text after a
    delimiter.  The alternatives are tried in the pattern's order: escaped
    ([$$]), named ([$name]), braced ([${name}]), invalid (a lone [$]).
    Returns the replacement and the text after the match. *)
Definition at_delimiter (mapping : list (string * string)) (rest : string)
  : string * string :=
  match rest with
  | String c r =>
      if Ascii.eqb c DOLLAR then (String DOLLAR EmptyString, r)
      else if is_id_start c then
        let (name, r') := span_id rest in
        (convert mapping name (String DOLLAR name), r')
      else if (Ascii.eqb c "{" && starts_with_id r)%bool then
        let (name, r') := span_id r in
        match r' with
        | String c' r'' =>
            if Ascii.eqb c' "}"
            then (convert mapping name
                    (String DOLLAR (String "{" (name ++ "}"))), r'')
            else (String DOLLAR EmptyString, rest)
        | EmptyString => (String DOLLAR EmptyString, rest)
        end
      else (String DOLLAR EmptyString, rest)
  | EmptyString => (String DOLLAR EmptyString, rest)
  end.

(** [pattern.sub(convert, template)]: scan from the left, replace every
    match, never rescan a replacement.  Every step consumes a character, so
    [length template] steps are enough. *)
Fixpoint sub_from (fuel : nat) (mapping : list (string * string))
  (s : string) : string :=
  match fuel with
  | O => s
  | S fuel' =>
      match s with
      | EmptyString => EmptyString
      | String c rest =>
          if Ascii.eqb c DOLLAR
          then let (out, r) := at_delimiter mapping rest in
               out ++ sub_from fuel' mapping r
          else String c (sub_from fuel' mapping rest)
      end
  end.

Definition safe_substitute (template : string)
  (mapping : list (string * string)) : string :=
  sub_from (String.length template) mapping template.

(** *** [shlex.quote] and [shlex.join] *)

Fixpoint mem_char (c : ascii) (s : string) : bool :=
  match s with
  | EmptyString => false
  | String c' s' => (Ascii.eqb c c' || mem_char c s')%bool
  end.

(** The characters outside [[^\w@%+=:,./-]] (ASCII). *)
Definition is_safe (c : ascii) : bool :=
  (is_id_char c || mem_char c "@%+=:,./-")%bool.

Fixpoint all_chars (p : ascii -> bool) (s : string) : bool :=
  match s with
  | EmptyString => true
  | String c s' => (p c && all_chars p s')%bool
  end.

(** [s.replace(c, by)] for a one-character [c]. *)
Fixpoint replace_char (c : ascii) (by_ : string) (s : string) : string :=
  match s with
  | EmptyString => EmptyString
  | String c' s' =>
      if Ascii.eqb c' c then by_ ++ replace_char c by_ s'
      else String c' (replace_char c by_ s')
  end.

(** The five characters that stand for one single quote inside a quoted
    word: quote, double quote, quote, double quote, quote. *)
Definition quote_escape : string :=
  String SQUOTE (String DQUOTE (String SQUOTE (String DQUOTE
    (String SQUOTE EmptyString)))).

Definition quote (s : string) : string :=
  if negb (truthy s) then "''"
  else if all_chars is_safe s then s
  else String SQUOTE (replace_char SQUOTE quote_escape s ++ "'").

Definition shlex_join (split_command : list string) : string :=
  join " " (map quote split_command).

End Py.

Import Py.

(** ** Exceptions, the world and the monad *)

(** The exception classes the module raises or tells apart.  Every class
    derives from [Exception], as errors do; an [OtherException] is any
    further such class, not derived from [FileNotFoundError] (say
    [PermissionError], [SystemError], [ImportError]).  [KeyboardInterrupt]
    and [SystemExit], which [except Exception] lets through, are not
    modelled. *)
Inductive exc_class : Type :=
| ValueError
| RuntimeError
| FileNotFoundError
| TypeError
| AttributeError
| OtherException (name : string).

(** An exception object: its class and [str(e)]. *)
Record exn : Type := Exn { exn_class : exc_class; exn_str : string }.

Definition is_FileNotFoundError (e : exn) : bool :=
  match exn_class e with
  | FileNotFoundError => true
  | _ => false
  end.

(** Outcome of a Python call. *)
Inductive result (A : Type) : Type :=
| Return (a : A)
| Raise (e : exn).
Arguments Return {A} a.
Arguments Raise {A} e.

(** What [subprocess.run(..., text=True, capture_output=True)] returns. *)
Record CompletedProcess : Type := Completed {
  returncode : Z;
  stdout : string;
  stderr : string
}.

(** The object [FzfPrompt()] builds. *)
Inductive FzfPrompt : Type := FzfPromptObject.

(** What the process does to the outside. *)
Inductive event : Type :=
| Launch (full_cmd : list string) (input : string)
| FzfConstruct
| FzfCall (entries : list string) (options : string)
| Stderr (msg : string).

(** The module global [_pyfzf_prompt] and the events so far, oldest first. *)
Record world : Type := World {
  _pyfzf_prompt : option FzfPrompt;
  trace : list event
}.

Definition M (A : Type) : Type := world -> result A * world.

Definition ret {A : Type} (a : A) : M A := fun w => (Return a, w).

Definition raise {A : Type} (e : exn) : M A := fun w => (Raise e, w).

Definition bind {A B : Type} (m : M A) (f : A -> M B) : M B :=
  fun w =>
    match m w with
    | (Return a, w') => f a w'
    | (Raise e, w') => (Raise e, w')
    end.

(** [try: m  except Exception as e: handler e]. *)
Definition try_except {A : Type} (m : M A) (handler : exn -> M A) : M A :=
  fun w =>
    match m w with
    | (Return a, w') => (Return a, w')
    | (Raise e, w') => handler e w'
    end.

Definition emit (ev : event) : M unit :=
  fun w => (Return tt, World (_pyfzf_prompt w) (trace w ++ [ev])).

(** The outcome of a call into code outside the module. *)
Definition outside {A : Type} (r : result A) : M A := fun w => (r, w).

Definition read_pyfzf_prompt : M (option FzfPrompt) :=
  fun w => (Return (_pyfzf_prompt w), w).

Definition write_pyfzf_prompt (p : FzfPrompt) : M unit :=
  fun w => (Return tt, World (Some p) (trace w)).

Declare Scope py_scope.
Delimit Scope py_scope with py.
Notation "x <- m ;; k" := (bind m (fun x => k))
  (at level 61, m at next level, right associativity) : py_scope.
Notation "m ;; k" := (bind m (fun _ => k))
  (at level 61, right associativity) : py_scope.
Local Open Scope py_scope.

(** ** Presets and the runtime *)

(** A preset of [PICKERS]: a dict whose keys are read by the dispatcher and
    the executors.  A field is [None] when the key is absent; where there is
    an inner option it is Python's [None], which the executors' annotations
    allow for three parameters and which the dispatcher's message about an
    empty or null [strategy] expects. *)
Module Preset.
Record t : Type := Make {
  strategy : option (option string);
  command : option string;
  args : option (option (list string));
  success_exit_codes : option (option (list Z));
  ignore_exit_codes : option (option (list Z));
  entry_separator : option string
}.
End Preset.

(** The programs and libraries the module calls: [subprocess.run] on a
    command line and an input, the import of [pyfzf.pyfzf.FzfPrompt] and its
    constructor (each may raise), the client's [prompt] method, and [str] of
    a preset dict. *)
Record runtime : Type := Runtime {
  subprocess_run : list string -> string -> result CompletedProcess;
  import_FzfPrompt : result unit;
  new_FzfPrompt : result FzfPrompt;
  FzfPrompt_prompt : list string -> string -> result (list string);
  str_of_dict : Preset.t -> string
}.

(** ** The module *)

Definition _INDENT : string := "  ".

Definition DEFAULT_PICKER : string := "default".

Definition PICKERS : list (string * Preset.t) :=
  [ ("default",
     Preset.Make (Some (Some "pyfzf")) None
       (Some (Some ["--cycle"; "--prompt"])) None None None);
    ("fzf",
     Preset.Make (Some (Some "shell")) (Some "fzf")
       (Some (Some ["--cycle"; "--prompt"; "$title"]))
       (Some (Some [0%Z])) (Some (Some [130%Z])) (Some " "));
    ("zenity",
     Preset.Make (Some (Some "shell")) (Some "zenity")
       (Some (Some ["--list"; "--title=nix-alien: Choose a package";
                    "--text=$title"; "--column=Libraries"]))
       (Some (Some [0%Z])) (Some (Some [1%Z])) (Some " ")) ].

(** The text of the [TypeError] of a call that leaves required parameters
    without a value. *)
Fixpoint names_and (l : list string) : string :=
  match l with
  | [] => EmptyString
  | [a] => "and '" ++ a ++ "'"
  | a :: rest => "'" ++ a ++ "', " ++ names_and rest
  end.

Definition missing_arguments (fn : string) (missing : list string) : exn :=
  Exn TypeError
    (fn ++ "() missing " ++ str_of_int (Z.of_nat (List.length missing))
     ++ " required positional argument"
     ++ match missing with
        | [a] => ": '" ++ a ++ "'"
        | [a; b] => "s: '" ++ a ++ "' and '" ++ b ++ "'"
        | _ => "s: " ++ names_and missing
        end).

Definition absent {A : Type} (key : string) (v : option A) : list string :=
  match v with
  | None => [key]
  | Some _ => []
  end.

(** Modelled from the spec: [get_print] of [helpers.py], a file of the
    repository that is not among the sources.  The silence flag controls
    whether a diagnostic is printed: [get_print(silent)] is [print] when
    [silent] is false and does nothing when it is true.  The module always
    calls it with [file=stderr]. *)
Definition get_print (silent : bool) (msg : string) : M unit :=
  if silent then ret tt else emit (Stderr msg).

Section Picker.

Variable rt : runtime.

Definition _run_pyfzf (entries : list string) (title : string)
  (args : option (list string)) : M (option string) :=
  let args := match args with None => [] | Some a => a end in
  outside (import_FzfPrompt rt) ;;
  cached <- read_pyfzf_prompt ;;
  client <- match cached with
            | None =>
                emit FzfConstruct ;;
                p <- outside (new_FzfPrompt rt) ;;
                write_pyfzf_prompt p ;;
                ret p
            | Some p => ret p
            end ;;
  let options := shlex_join (args ++ [title ++ "> "]) in
  emit (FzfCall entries options) ;;
  result <- outside (FzfPrompt_prompt rt entries options) ;;
  match result with
  | first :: _ => ret (Some first)
  | [] => ret None
  end.

Definition _run_shell (entries : list string) (title command : string)
  (args : option (list string))
  (success_exit_codes ignore_exit_codes : option (list Z))
  (entry_separator : string) : M (option string) :=
  let args := match args with None => [] | Some a => a end in
  let success_exit_codes :=
    match success_exit_codes with None => [] | Some l => l end in
  let ignore_exit_codes :=
    match ignore_exit_codes with None => [] | Some l => l end in
  let command := strip command in
  if negb (truthy command) then
    raise (Exn ValueError
      "Given 'command' parameter is empty or whitespace only: '{command}'")
  else
    let formatted_args :=
      map (fun arg => safe_substitute arg [("title", title)]) args in
    let full_cmd := command :: formatted_args in
    try_except
      (let input := join entry_separator entries in
       emit (Launch full_cmd input) ;;
       proc <- outside (subprocess_run rt full_cmd input) ;;
       if int_in (returncode proc) success_exit_codes then
         ret (or_None (strip (stdout proc)))
       else if int_in (returncode proc) ignore_exit_codes then
         ret None
       else
         let err := str_or (strip (stderr proc)) "No error message returned." in
         raise (Exn RuntimeError
           ("Exit code " ++ str_of_int (returncode proc) ++ ": "
            ++ String LF err)))
      (fun e =>
         if is_FileNotFoundError e then
           raise (Exn FileNotFoundError
             ("Could not find the binary '" ++ command ++ "' in your PATH."))
         else
           let pargs := join " " formatted_args in
           raise (Exn RuntimeError
             ("Failed to execute shell command: "
              ++ command ++ " " ++ pargs ++ "'"
              ++ String LF (indent (exn_str e) _INDENT)))).

(** [executor(entries, title, **picker_config)] for each executor: a
    required parameter whose key is absent is a [TypeError]; the keys the
    executor does not name, [strategy] among them, go to its [**kwargs]. *)
Definition call_run_pyfzf (entries : list string) (title : string)
  (picker_config : Preset.t) : M (option string) :=
  match Preset.args picker_config with
  | Some args => _run_pyfzf entries title args
  | None => raise (missing_arguments "_run_pyfzf" ["args"])
  end.

Definition call_run_shell (entries : list string) (title : string)
  (picker_config : Preset.t) : M (option string) :=
  match Preset.command picker_config, Preset.args picker_config,
        Preset.success_exit_codes picker_config,
        Preset.ignore_exit_codes picker_config with
  | Some command, Some args, Some success_exit_codes, Some ignore_exit_codes =>
      _run_shell entries title command args success_exit_codes
        ignore_exit_codes
        match Preset.entry_separator picker_config with
        | Some sep => sep
        | None => String LF EmptyString
        end
  | c, a, s, i =>
      raise (missing_arguments "_run_shell"
               (absent "command" c ++ absent "args" a
                ++ absent "success_exit_codes" s
                ++ absent "ignore_exit_codes" i))
  end.

(** A value of the [RUN_STRATEGIES] dict: a function, or an object that is
    not callable, with its truth value. *)
Inductive strategy_value : Type :=
| Function_ (executor : list string -> string -> Preset.t -> M (option string))
| Object_ (truth : bool).

Definition RUN_STRATEGIES : list (string * strategy_value) :=
  [ ("pyfzf", Function_ call_run_pyfzf); ("shell", Function_ call_run_shell) ].

(** [prompt], the two registries it reads being made explicit. *)
Definition prompt_in (pickers : list (string * Preset.t))
  (run_strategies : list (string * strategy_value))
  (entries : list string) (picker_id prompt_title : string) (silent : bool)
  : M (option string) :=
  let _print := get_print silent in
  let picker_id := strip picker_id in
  match dict_get pickers picker_id with
  | None =>
      _print ("Argument '" ++ picker_id
              ++ "' is not the name of an existing picker preset."
              ++ "Valid names are: '" ++ join ", " (keys pickers) ++ "'") ;;
      ret None
  | Some picker_config =>
      strat_name <- match Preset.strategy picker_config with
                    | None => ret (strip EmptyString)
                    | Some (Some s) => ret (strip s)
                    | Some None =>
                        raise (Exn AttributeError
                          "'NoneType' object has no attribute 'strip'")
                    end ;;
      if negb (truthy strat_name) then
        _print ("Internal Error: Preset picker config " ++ picker_id ++ " "
                ++ "has an empty or null 'strategy' field.") ;;
        ret None
      else
        match dict_get run_strategies strat_name with
        | None | Some (Object_ false) =>
            _print ("Internal Error: Preset picker config " ++ picker_id
                    ++ "uses an unknown strategy called '" ++ strat_name
                    ++ "'") ;;
            ret None
        | Some (Object_ true) =>
            _print ("Internal Error: Strategy '" ++ strat_name
                    ++ "' points to a value that is" ++ "not a function.") ;;
            ret None
        | Some (Function_ executor) =>
            try_except
              (executor entries prompt_title picker_config)
              (fun e =>
                 _print (join (String LF EmptyString)
                   [ "Picker preset '" ++ picker_id ++ "' (with strategy '"
                     ++ strat_name ++ "') "
                     ++ "(called with params: title=" ++ prompt_title ++ ", "
                     ++ "config=" ++ str_of_dict rt picker_config
                     ++ ") raised the following error:";
                     indent (exn_str e) _INDENT ]) ;;
                 ret None)
        end
  end.

Definition prompt : list string -> string -> string -> bool
  -> M (option string) :=
  prompt_in PICKERS RUN_STRATEGIES.

End Picker.

(** ** Vocabulary of the statements *)

(** [t] occurs in [s]. *)
Definition contains (s t : string) : Prop :=
  exists pre post, s = pre ++ t ++ post.

(** The same, decided. *)
Fixpoint is_infix (t s : string) : bool :=
  (String.prefix t s
   || match s with
      | EmptyString => false
      | String _ s' => is_infix t s'
      end)%bool.

(** The rendering of one argument template in [_run_shell]. *)
Definition render (title template : string) : string :=
  safe_substitute template [("title", title)].

Definition no_dollar (s : string) : bool :=
  all_chars (fun c => negb (Ascii.eqb c DOLLAR)) s.

Definition single_line (s : string) : bool :=
  all_chars (fun c => negb (islinebreak c)) s.

Definition starts_with_id_char (s : string) : bool :=
  match s with
  | String c _ => is_id_char c
  | EmptyString => false
  end.

(** A template identifier: a letter or underscore, then identifier
    characters. *)
Definition is_identifier (s : string) : bool :=
  (starts_with_id s && all_chars is_id_char s)%bool.

(** [arg or []] for an optional list. *)
Definition or_nil {A : Type} (l : option (list A)) : list A :=
  match l with
  | None => []
  | Some l => l
  end.

(** The command line [_run_shell] launches. *)
Definition full_cmd (title command : string) (args : option (list string))
  : list string :=
  strip command :: map (render title) (or_nil args).

(** The world after one more event. *)
Definition after (w : world) (evs : list event) : world :=
  World (_pyfzf_prompt w) (trace w ++ evs).

(** The text of the error [_run_shell] raises for an exit code that is in
    neither list. *)
Definition exit_code_text (proc : CompletedProcess) : string :=
  "Exit code " ++ str_of_int (returncode proc) ++ ": "
  ++ String LF (str_or (strip (stderr proc)) "No error message returned.").

(** The error of the last [except] clause of [_run_shell], [cause] being
    [str] of the exception it caught. *)
Definition launch_failure (title command : string)
  (args : option (list string)) (cause : string) : exn :=
  Exn RuntimeError
    ("Failed to execute shell command: " ++ strip command ++ " "
     ++ join " " (map (render title) (or_nil args)) ++ "'"
     ++ String LF (indent cause _INDENT)).

(** The error of the first [except] clause of [_run_shell]. *)
Definition binary_not_found (command : string) : exn :=
  Exn FileNotFoundError
    ("Could not find the binary '" ++ strip command ++ "' in your PATH.").

(** What [_run_shell] makes of the outcome of [subprocess.run]. *)
Definition shell_outcome (title command : string)
  (args : option (list string)) (success ignore : option (list Z))
  (run : result CompletedProcess) : result (option string) :=
  match run with
  | Return proc =>
      if int_in (returncode proc) (or_nil success)
      then Return (or_None (strip (stdout proc)))
      else if int_in (returncode proc) (or_nil ignore)
      then Return None
      else Raise (launch_failure title command args (exit_code_text proc))
  | Raise e =>
      if is_FileNotFoundError e
      then Raise (binary_not_found command)
      else Raise (launch_failure title command args (exn_str e))
  end.

(** The option string [_run_pyfzf] builds. *)
Definition fzf_options (title : string) (args : option (list string))
  : string :=
  shlex_join (or_nil args ++ [title ++ "> "]).

(** The diagnostic of the [except] clause of [prompt]. *)
Definition executor_diagnostic (rt : runtime) (picker_id strat_name
  prompt_title : string) (picker_config : Preset.t) (e : exn) : string :=
  join (String LF EmptyString)
    [ "Picker preset '" ++ picker_id ++ "' (with strategy '"
      ++ strat_name ++ "') "
      ++ "(called with params: title=" ++ prompt_title ++ ", "
      ++ "config=" ++ str_of_dict rt picker_config
      ++ ") raised the following error:";
      indent (exn_str e) _INDENT ].

(** The configuration errors of a call of [prompt]: the trimmed identifier
    is not a key of the preset registry; or the preset has no [strategy]; or
    its [strategy] is empty or blank; or the trimmed strategy name is not
    mapped to a function in the strategy registry. *)
Inductive configuration_error (pickers : list (string * Preset.t))
  (strategies : list (string * strategy_value)) (picker_id : string)
  : Prop :=
| unknown_identifier :
    dict_get pickers (strip picker_id) = None ->
    configuration_error pickers strategies picker_id
| missing_strategy (cfg : Preset.t) :
    dict_get pickers (strip picker_id) = Some cfg ->
    Preset.strategy cfg = None ->
    configuration_error pickers strategies picker_id
| blank_strategy (cfg : Preset.t) (strat : string) :
    dict_get pickers (strip picker_id) = Some cfg ->
    Preset.strategy cfg = Some (Some strat) ->
    strip strat = EmptyString ->
    configuration_error pickers strategies picker_id
| not_invocable (cfg : Preset.t) (strat : string) :
    dict_get pickers (strip picker_id) = Some cfg ->
    Preset.strategy cfg = Some (Some strat) ->
    (forall executor,
       dict_get strategies (strip strat) <> Some (Function_ executor)) ->
    configuration_error pickers strategies picker_id.

(** The diagnostic for an unknown preset identifier. *)
Definition unknown_preset_diagnostic (pickers : list (string * Preset.t))
  (picker_id : string) : string :=
  "Argument '" ++ strip picker_id
  ++ "' is not the name of an existing picker preset."
  ++ "Valid names are: '" ++ join ", " (keys pickers) ++ "'".

(** A strategy that always raises, and a registry that uses it. *)
Definition failing_executor (e : exn) : strategy_value :=
  Function_ (fun _ _ _ => raise e).

(** The events that write a diagnostic, and the events that call the
    selection tool. *)
Definition is_Stderr (ev : event) : bool :=
  match ev with
  | Stderr _ => true
  | _ => false
  end.

Definition is_tool_call (ev : event) : bool :=
  match ev with
  | Launch _ _ | FzfCall _ _ => true
  | _ => false
  end.

Definition count (p : event -> bool) (evs : list event) : nat :=
  List.length (filter p evs).

(** No white space at either end. *)
Definition trimmed (s : string) : Prop := strip s = s.

(** What [prompt] makes of the outcome of the executor it called. *)
Definition dispatched (rt : runtime) (silent : bool)
  (picker_id strat_name prompt_title : string) (picker_config : Preset.t)
  (outcome : result (option string) * world)
  : result (option string) * world :=
  match outcome with
  | (Return selected, w') => (Return selected, w')
  | (Raise e, w') =>
      (Return None,
       if silent then w'
       else after w' [Stderr (executor_diagnostic rt picker_id strat_name
                                prompt_title picker_config e)])
  end.

(** The built-in presets. *)
Definition default_preset : Preset.t :=
  Preset.Make (Some (Some "pyfzf")) None
    (Some (Some ["--cycle"; "--prompt"])) None None None.

Definition fzf_preset : Preset.t :=
  Preset.Make (Some (Some "shell")) (Some "fzf")
    (Some (Some ["--cycle"; "--prompt"; "$title"]))
    (Some (Some [0%Z])) (Some (Some [130%Z])) (Some " ").

Definition zenity_preset : Preset.t :=
  Preset.Make (Some (Some "shell")) (Some "zenity")
    (Some (Some ["--list"; "--title=nix-alien: Choose a package";
                 "--text=$title"; "--column=Libraries"]))
    (Some (Some [0%Z])) (Some (Some [1%Z])) (Some " ").

(** The command lines of the two built-in shell presets. *)
Definition fzf_cmd (title : string) : list string :=
  ["fzf"; "--cycle"; "--prompt"; title].

Definition zenity_cmd (title : string) : list string :=
  ["zenity"; "--list"; "--title=nix-alien: Choose a package";
   "--text=" ++ title; "--column=Libraries"].

(** What follows a dollar sign makes it an escape or a placeholder: another
    dollar sign, an identifier, or an identifier in braces. *)
Definition begins_placeholder (rest : string) : bool :=
  match rest with
  | EmptyString => false
  | String c r =>
      (Ascii.eqb c DOLLAR || is_id_start c
       || (Ascii.eqb c "{" && starts_with_id r
           && match snd (span_id r) with
              | String c' _ => Ascii.eqb c' "}"
              | EmptyString => false
              end))%bool
  end.

(** The rules of the rendering, for a function [f] from templates to
    rendered arguments: the empty template; a character that is not a
    dollar sign; the escape; a bare and a braced placeholder, replaced by
    the title when the name is [title] and kept otherwise; a dollar sign
    that begins none of these. *)
Definition rendering_rules (title : string) (f : string -> string) : Prop :=
  f EmptyString = EmptyString
  /\ (forall c rest,
        Ascii.eqb c DOLLAR = false -> f (String c rest) = String c (f rest))
  /\ (forall rest, f ("$$" ++ rest) = "$" ++ f rest)
  /\ (forall name rest,
        is_identifier name = true -> starts_with_id_char rest = false ->
        f ("$" ++ name ++ rest)
        = (if String.eqb name "title" then title else "$" ++ name) ++ f rest)
  /\ (forall name rest,
        is_identifier name = true ->
        f ("${" ++ name ++ "}" ++ rest)
        = (if String.eqb name "title" then title else "${" ++ name ++ "}")
          ++ f rest)
  /\ (forall rest,
        begins_placeholder rest = false -> f ("$" ++ rest) = "$" ++ f rest).

(** ** Scripted runtimes for concrete runs *)

(** A runtime whose subprocess always ends as [proc] and whose fzf client
    always answers [picked]. *)
Definition scripted (proc : result CompletedProcess)
  (picked : result (list string)) : runtime :=
  Runtime (fun _ _ => proc) (Return tt) (Return FzfPromptObject)
    (fun _ _ => picked) (fun _ => "{...}").

Definition exits (code : Z) (out err : string) : runtime :=
  scripted (Return (Completed code out err)) (Return []).

Definition fresh : world := World None [].

(** ** Facts about strings *)

Lemma append_nil_r (s : string) : s ++ EmptyString = s.
Proof. induction s as [|c s IH]; simpl; [reflexivity | now rewrite IH]. Qed.

Lemma append_assoc (a b c : string) : (a ++ b) ++ c = a ++ (b ++ c).
Proof. induction a as [|x a IH]; simpl; [reflexivity | now rewrite IH]. Qed.

Lemma length_append (a b : string) :
  String.length (a ++ b) = String.length a + String.length b.
Proof. induction a as [|x a IH]; simpl; [reflexivity | now rewrite IH]. Qed.

Lemma prefix_iff (t s : string) :
  String.prefix t s = true <-> exists post, s = t ++ post.
Proof.
  revert s. induction t as [|c t IH]; intros s.
  - destruct s; simpl; split; intros _; eauto.
  - destruct s as [|d s]; simpl.
    + split; [discriminate | intros [post H]; discriminate].
    + destruct (ascii_dec c d) as [->|Hne].
      * rewrite IH. split; intros [post H]; exists post.
        -- now rewrite H.
        -- now injection H.
      * split; [discriminate | intros [post H]].
        injection H as H1 H2. congruence.
Qed.

Lemma is_infix_iff (t s : string) : is_infix t s = true <-> contains s t.
Proof.
  induction s as [|c s IH].
  - cbn [is_infix]. rewrite orb_false_r, prefix_iff. split.
    + intros [post H]. exists EmptyString, post. exact H.
    + intros [pre [post H]]. destruct pre; simpl in H.
      * eauto.
      * discriminate.
  - cbn [is_infix]. rewrite orb_true_iff, IH, prefix_iff. split.
    + intros [[post H] | [pre [post H]]].
      * exists EmptyString, post. exact H.
      * exists (String c pre), post. simpl. now rewrite H.
    + intros [pre [post H]]. destruct pre as [|d pre]; simpl in H.
      * left. eauto.
      * right. injection H as _ H. exists pre, post. exact H.
Qed.

Lemma contains_app_l (s t u : string) : contains s t -> contains (u ++ s) t.
Proof.
  intros [pre [post H]]. exists (u ++ pre), post.
  now rewrite H, append_assoc.
Qed.

Lemma contains_app_r (s t u : string) : contains s t -> contains (s ++ u) t.
Proof.
  intros [pre [post H]]. exists pre, (post ++ u).
  now rewrite H, !append_assoc.
Qed.

Lemma contains_refl (s : string) : contains s s.
Proof. exists EmptyString, EmptyString. simpl. now rewrite append_nil_r. Qed.

Lemma contains_cons (c : ascii) (s t : string) :
  contains s t -> contains (String c s) t.
Proof. apply (contains_app_l s t (String c EmptyString)). Qed.

Lemma all_chars_app (p : ascii -> bool) (a b : string) :
  all_chars p (a ++ b) = (all_chars p a && all_chars p b)%bool.
Proof.
  induction a as [|c a IH]; simpl; [reflexivity|].
  now rewrite IH, andb_assoc.
Qed.

Lemma truthy_app_l (a b : string) : truthy a = true -> truthy (a ++ b) = true.
Proof. destruct a; simpl; [discriminate | reflexivity]. Qed.

Lemma truthy_false (s : string) : truthy s = false -> s = EmptyString.
Proof. destruct s; simpl; [reflexivity | discriminate]. Qed.

(** ** The shell executor *)

(** With a command that is not blank, [_run_shell] launches exactly one
    subprocess and its result is decided by that subprocess alone. *)
Lemma run_shell_launched (rt : runtime) (entries : list string)
  (title command : string) (args : option (list string))
  (success ignore : option (list Z)) (sep : string) (w : world) :
  truthy (strip command) = true ->
  _run_shell rt entries title command args success ignore sep w
  = (shell_outcome title command args success ignore
       (subprocess_run rt (full_cmd title command args) (join sep entries)),
     after w [Launch (full_cmd title command args) (join sep entries)]).
Proof.
  intros Hcmd. unfold _run_shell. rewrite Hcmd. cbn [negb].
  unfold try_except, bind, emit, outside, after, full_cmd, shell_outcome.
  destruct args as [args|], success as [success|], ignore as [ignore|];
    cbn [or_nil];
    (destruct (subprocess_run rt _ _) as [proc|e];
     [ repeat match goal with
              | |- context [int_in ?n ?l] => destruct (int_in n l)
              end; reflexivity
     | destruct (is_FileNotFoundError e); reflexivity ]).
Qed.

(** With a blank command, [_run_shell] raises at once and leaves the world
    as it was. *)
Lemma run_shell_blank (rt : runtime) (entries : list string)
  (title command : string) (args : option (list string))
  (success ignore : option (list Z)) (sep : string) (w : world) :
  truthy (strip command) = false ->
  _run_shell rt entries title command args success ignore sep w
  = (Raise (Exn ValueError
       "Given 'command' parameter is empty or whitespace only: '{command}'"),
     w).
Proof.
  intros Hcmd. unfold _run_shell. rewrite Hcmd. reflexivity.
Qed.

Lemma truthy_iff (s : string) : truthy s = true <-> s <> EmptyString.
Proof. destruct s; simpl; split; congruence. Qed.

Lemma not_truthy_iff (s : string) : truthy s = false <-> s = EmptyString.
Proof. destruct s; simpl; split; congruence. Qed.

(** C6: when [command] is empty or whitespace-only after trimming, the shell
    executor fails with an invalid-argument error ([ValueError]) before any
    subprocess is launched: it leaves the world as it found it, so the trace
    gains no launch and no input is written, and the runtime is never
    consulted. *)
Theorem run_shell_blank_command_fails_before_launch
  (rt : runtime) (entries : list string) (title command : string)
  (args : option (list string)) (success ignore : option (list Z))
  (sep : string) (w : world) :
  strip command = EmptyString ->
  (exists msg,
     fst (_run_shell rt entries title command args success ignore sep w)
     = Raise (Exn ValueError msg))
  /\ snd (_run_shell rt entries title command args success ignore sep w) = w
  /\ (forall rt' : runtime,
        _run_shell rt' entries title command args success ignore sep w
        = _run_shell rt entries title command args success ignore sep w).
Proof.
  intros Hblank. apply not_truthy_iff in Hblank.
  repeat split.
  - rewrite run_shell_blank by assumption. eexists. reflexivity.
  - now rewrite run_shell_blank.
  - intros rt'. now rewrite !run_shell_blank.
Qed.

Lemma run_shell_blank_command_fails_before_launch_witness :
  strip "   " = EmptyString
  /\ snd (_run_shell (exits 0 "a" EmptyString) ["a"; "b"] "Pick one" "   "
            (Some ["--cycle"]) (Some [0%Z]) (Some [130%Z]) " " fresh)
     = fresh.
Proof.
  split; [reflexivity|].
  apply (run_shell_blank_command_fails_before_launch
           (exits 0 "a" EmptyString) ["a"; "b"] "Pick one" "   "
           (Some ["--cycle"]) (Some [0%Z]) (Some [130%Z]) " " fresh).
  reflexivity.
Defined.

(** C10: the message of the invalid-argument error is a plain string, not an
    interpolating one: it holds the literal text [{command}] and never the
    command's value, so every command that trims to empty gets the same
    fixed message. *)
Theorem run_shell_blank_command_message_is_fixed
  (rt : runtime) (entries : list string) (title command command' : string)
  (args : option (list string)) (success ignore : option (list Z))
  (sep : string) (w : world) :
  strip command = EmptyString ->
  strip command' = EmptyString ->
  fst (_run_shell rt entries title command args success ignore sep w)
  = Raise (Exn ValueError
      "Given 'command' parameter is empty or whitespace only: '{command}'")
  /\ contains
       "Given 'command' parameter is empty or whitespace only: '{command}'"
       "{command}"
  /\ fst (_run_shell rt entries title command' args success ignore sep w)
     = fst (_run_shell rt entries title command args success ignore sep w).
Proof.
  intros H H'. apply not_truthy_iff in H, H'.
  rewrite !run_shell_blank by assumption. repeat split.
  apply is_infix_iff. reflexivity.
Qed.

Lemma run_shell_blank_command_message_is_fixed_witness :
  strip "  " = EmptyString /\ strip EmptyString = EmptyString
  /\ fst (_run_shell (exits 0 "a" EmptyString) ["a"] "Pick one" "  "
            None None None " " fresh)
     = Raise (Exn ValueError
         "Given 'command' parameter is empty or whitespace only: '{command}'").
Proof.
  split; [reflexivity|]. split; [reflexivity|].
  apply (run_shell_blank_command_message_is_fixed
           (exits 0 "a" EmptyString) ["a"] "Pick one" "  " EmptyString
           None None None " " fresh); reflexivity.
Defined.

(** C5: when the executable cannot be located ([subprocess.run] raises
    [FileNotFoundError]), the shell executor fails with a
    [FileNotFoundError] of its own whose message names the trimmed command,
    and that error is not the generic launch-failure [RuntimeError],
    whatever cause one would wrap. *)
Theorem run_shell_executable_not_found
  (rt : runtime) (entries : list string) (title command : string)
  (args : option (list string)) (success ignore : option (list Z))
  (sep : string) (w : world) (e : exn) :
  strip command <> EmptyString ->
  subprocess_run rt (full_cmd title command args) (join sep entries)
  = Raise e ->
  exn_class e = FileNotFoundError ->
  fst (_run_shell rt entries title command args success ignore sep w)
  = Raise (Exn FileNotFoundError
      ("Could not find the binary '" ++ strip command ++ "' in your PATH."))
  /\ contains
       ("Could not find the binary '" ++ strip command ++ "' in your PATH.")
       (strip command)
  /\ forall cause,
       fst (_run_shell rt entries title command args success ignore sep w)
       <> Raise (launch_failure title command args cause).
Proof.
  intros Hcmd Hrun Hclass. apply truthy_iff in Hcmd.
  rewrite run_shell_launched by assumption. rewrite Hrun.
  cbn [fst shell_outcome]. unfold is_FileNotFoundError. rewrite Hclass.
  repeat split.
  - eexists _, _. reflexivity.
  - intros cause. unfold binary_not_found, launch_failure. discriminate.
Qed.

Lemma run_shell_executable_not_found_witness :
  fst (_run_shell
         (scripted (Raise (Exn FileNotFoundError "[Errno 2]")) (Return []))
         ["a"; "b"] "Pick one" " zenity " (Some ["--list"])
         (Some [0%Z]) (Some [1%Z]) " " fresh)
  = Raise (Exn FileNotFoundError
      "Could not find the binary 'zenity' in your PATH.").
Proof.
  apply (run_shell_executable_not_found
           (scripted (Raise (Exn FileNotFoundError "[Errno 2]")) (Return []))
           ["a"; "b"] "Pick one" " zenity " (Some ["--list"])
           (Some [0%Z]) (Some [1%Z]) " " fresh
           (Exn FileNotFoundError "[Errno 2]")).
  - discriminate.
  - reflexivity.
  - reflexivity.
Defined.

(** C8: the shell executor hands the subprocess, as standard input, the
    entries joined by the entry separator; a preset without
    [entry_separator] gets the default, a newline.  So ["a"; "b"; "c"] goes
    in as [a b c] with separator [" "] and as three lines by default. *)
Theorem run_shell_stdin_is_joined_entries
  (rt : runtime) (entries : list string) (title command : string)
  (args : option (list string)) (success ignore : option (list Z))
  (sep : string) (w : world) :
  strip command <> EmptyString ->
  snd (_run_shell rt entries title command args success ignore sep w)
  = after w [Launch (full_cmd title command args) (join sep entries)]
  /\ (forall strategy,
        call_run_shell rt entries title
          (Preset.Make strategy (Some command) (Some args) (Some success)
             (Some ignore) None)
        = _run_shell rt entries title command args success ignore
            (String LF EmptyString))
  /\ (forall strategy,
        call_run_shell rt entries title
          (Preset.Make strategy (Some command) (Some args) (Some success)
             (Some ignore) (Some sep))
        = _run_shell rt entries title command args success ignore sep)
  /\ trace (snd (_run_shell rt ["a"; "b"; "c"] title command args success
                   ignore " " fresh))
     = [Launch (full_cmd title command args) "a b c"]
  /\ trace (snd (call_run_shell rt ["a"; "b"; "c"] title
                   (Preset.Make None (Some command) (Some args)
                      (Some success) (Some ignore) None) fresh))
     = [Launch (full_cmd title command args)
          (String "a" (String LF (String "b" (String LF "c"))))].
Proof.
  intros Hcmd. apply truthy_iff in Hcmd.
  repeat split.
  - now rewrite run_shell_launched.
  - now rewrite run_shell_launched.
  - cbn [call_run_shell Preset.command Preset.args
         Preset.success_exit_codes Preset.ignore_exit_codes
         Preset.entry_separator].
    now rewrite run_shell_launched.
Qed.

Lemma run_shell_stdin_is_joined_entries_witness :
  strip "fzf" <> EmptyString
  /\ snd (_run_shell (exits 0 "b" EmptyString) ["a"; "b"; "c"] "Pick one"
            "fzf" (Some ["--prompt"; "$title"]) (Some [0%Z]) (Some [130%Z])
            " " fresh)
     = World None [Launch ["fzf"; "--prompt"; "Pick one"] "a b c"].
Proof.
  split; [discriminate|].
  apply (run_shell_stdin_is_joined_entries (exits 0 "b" EmptyString)
           ["a"; "b"; "c"] "Pick one" "fzf" (Some ["--prompt"; "$title"])
           (Some [0%Z]) (Some [130%Z]) " " fresh).
  discriminate.
Defined.




(** The spec's examples for the built-in presets, through the dispatcher:
    [fzf] exiting with 130 gives no selection and logs nothing; exiting with
    0 and a line of output gives that line, trimmed. *)
Example prompt_fzf_cancelled :
  prompt (exits 130 EmptyString EmptyString) ["a"; "b"] "fzf" "Pick one"
    false fresh
  = (Return None,
     World None [Launch ["fzf"; "--cycle"; "--prompt"; "Pick one"] "a b"]).
Proof. reflexivity. Qed.

Example prompt_fzf_selected :
  fst (prompt (exits 0 (String "l" (String "i" (String "b" (String LF
                  EmptyString)))) EmptyString)
         ["lib"; "lab"] "fzf" "Pick one" false fresh)
  = Return (Some "lib").
Proof. reflexivity. Qed.

(** ** The embedded-prompt executor *)

(** C9: the embedded-prompt executor builds its option string as the
    shell-quoted join of the extra arguments followed by the title formatted
    as [{title}> ], calls the client with the entries and that string, and
    returns the first element of the client's result when it is not empty
    and [None] when it is empty. *)
Theorem run_pyfzf_returns_first_pick
  (rt : runtime) (entries : list string) (title : string)
  (args : option (list string)) (w : world) (picked : list string) :
  import_FzfPrompt rt = Return tt ->
  (_pyfzf_prompt w = None -> new_FzfPrompt rt = Return FzfPromptObject) ->
  FzfPrompt_prompt rt entries (fzf_options title args) = Return picked ->
  fst (_run_pyfzf rt entries title args w)
  = Return match picked with
           | first :: _ => Some first
           | [] => None
           end
  /\ trace (snd (_run_pyfzf rt entries title args w))
     = (trace w
        ++ match _pyfzf_prompt w with
           | None => [FzfConstruct]
           | Some _ => []
           end
        ++ [FzfCall entries (fzf_options title args)])%list
  /\ _pyfzf_prompt (snd (_run_pyfzf rt entries title args w))
     = Some FzfPromptObject.
Proof.
  intros Himport Hnew Hcall.
  unfold _run_pyfzf, bind, outside, read_pyfzf_prompt, write_pyfzf_prompt,
    emit, ret.
  rewrite Himport.
  destruct w as [[[]|] tr]; cbn [_pyfzf_prompt trace] in *.
  - assert (Hopt : shlex_join
                     (match args with None => [] | Some a => a end
                      ++ [title ++ "> "])
                   = fzf_options title args)
      by reflexivity.
    rewrite Hopt, Hcall. destruct picked; repeat split.
  - rewrite (Hnew eq_refl). cbn [_pyfzf_prompt trace].
    assert (Hopt : shlex_join
                     (match args with None => [] | Some a => a end
                      ++ [title ++ "> "])
                   = fzf_options title args)
      by reflexivity.
    rewrite Hopt, Hcall.
    destruct picked; cbn [fst snd trace _pyfzf_prompt];
      rewrite <- app_assoc; repeat split.
Qed.

Lemma run_pyfzf_returns_first_pick_witness :
  fst (_run_pyfzf (scripted (Return (Completed 0 EmptyString EmptyString))
                     (Return ["b"; "c"]))
         ["a"; "b"; "c"] "Pick one" (Some ["--cycle"; "--prompt"]) fresh)
  = Return (Some "b")
  /\ trace (snd (_run_pyfzf
                   (scripted (Return (Completed 0 EmptyString EmptyString))
                      (Return ["b"; "c"]))
                   ["a"; "b"; "c"] "Pick one" (Some ["--cycle"; "--prompt"])
                   fresh))
     = [FzfConstruct;
        FzfCall ["a"; "b"; "c"] "--cycle --prompt 'Pick one> '"].
Proof.
  destruct (run_pyfzf_returns_first_pick
              (scripted (Return (Completed 0 EmptyString EmptyString))
                 (Return ["b"; "c"]))
              ["a"; "b"; "c"] "Pick one" (Some ["--cycle"; "--prompt"])
              fresh ["b"; "c"])
    as [Hres [Htrace _]].
  - reflexivity.
  - intros _. reflexivity.
  - reflexivity.
  - split; [exact Hres | exact Htrace].
Defined.

Example run_pyfzf_aborted :
  fst (_run_pyfzf (scripted (Return (Completed 0 EmptyString EmptyString))
                     (Return []))
         ["a"; "b"] "Pick one" None fresh)
  = Return None.
Proof. reflexivity. Qed.

(** ** The dispatcher *)

Lemma get_print_then_None (silent : bool) (msg : string) (w : world) :
  bind (get_print silent msg) (fun _ => ret (@None string)) w
  = (Return None, if silent then w else after w [Stderr msg]).
Proof. destruct silent; reflexivity. Qed.

Lemma bind_ret {A B : Type} (a : A) (f : A -> M B) : bind (ret a) f = f a.
Proof. reflexivity. Qed.

(** Whatever the registries hold, [prompt_in] returns, provided the preset
    it finds has no null [strategy]. *)
Lemma prompt_in_returns (rt : runtime) (pickers : list (string * Preset.t))
  (strategies : list (string * strategy_value)) (entries : list string)
  (picker_id prompt_title : string) (silent : bool) (w : world) :
  (forall cfg, dict_get pickers (strip picker_id) = Some cfg ->
               Preset.strategy cfg <> Some None) ->
  exists selected : option string,
    fst (prompt_in rt pickers strategies entries picker_id prompt_title
           silent w) = Return selected.
Proof.
  intros Hnull. unfold prompt_in.
  destruct (dict_get pickers (strip picker_id)) as [cfg|].
  2: { rewrite get_print_then_None. eexists. reflexivity. }
  specialize (Hnull cfg eq_refl).
  destruct (Preset.strategy cfg) as [[strat|]|]; [| congruence |];
    rewrite bind_ret.
  all: destruct (negb (truthy _)).
  all: try (rewrite get_print_then_None; eexists; reflexivity).
  all: destruct (dict_get strategies _) as [[executor|[|]]|];
    try (rewrite get_print_then_None; eexists; reflexivity).
  all: unfold try_except;
    destruct (executor entries prompt_title cfg w) as [[selected|e] w'];
    [eexists; reflexivity | rewrite get_print_then_None; eexists; reflexivity].
Qed.

(** An executor that raises makes [prompt_in] print the diagnostic, unless
    silenced, and return [None]. *)
Lemma prompt_in_swallows (rt : runtime) (pickers : list (string * Preset.t))
  (strategies : list (string * strategy_value)) (entries : list string)
  (picker_id prompt_title : string) (silent : bool) (w w' : world)
  (cfg : Preset.t) (strat : string)
  (executor : list string -> string -> Preset.t -> M (option string))
  (e : exn) :
  dict_get pickers (strip picker_id) = Some cfg ->
  Preset.strategy cfg = Some (Some strat) ->
  strip strat <> EmptyString ->
  dict_get strategies (strip strat) = Some (Function_ executor) ->
  executor entries prompt_title cfg w = (Raise e, w') ->
  prompt_in rt pickers strategies entries picker_id prompt_title silent w
  = (Return None,
     if silent then w'
     else after w' [Stderr (executor_diagnostic rt (strip picker_id)
                              (strip strat) prompt_title cfg e)]).
Proof.
  intros Hcfg Hstrat Hname Hexec Hraise. unfold prompt_in.
  rewrite Hcfg, Hstrat, bind_ret. apply truthy_iff in Hname. rewrite Hname.
  cbn [negb]. rewrite Hexec. unfold try_except. rewrite Hraise.
  now rewrite get_print_then_None.
Qed.

Lemma PICKERS_strategies (k : string) (cfg : Preset.t) :
  dict_get PICKERS k = Some cfg -> Preset.strategy cfg <> Some None.
Proof.
  unfold PICKERS. cbn [dict_get].
  repeat match goal with
         | |- context [String.eqb ?a k] => destruct (String.eqb a k)
         end;
    intros [= <-]; discriminate.
Qed.

(** C1: for every candidate list, preset identifier, title and silence
    flag, in every world and with every runtime, [prompt] returns a selected
    string or [None]: it never raises.  The same holds with any registries
    in place of the built-in ones whose preset has no null [strategy], so
    with executors that raise whatever they like. *)
Theorem prompt_never_raises (rt : runtime) (entries : list string)
  (picker_id prompt_title : string) (silent : bool) (w : world) :
  (exists selected : option string,
     fst (prompt rt entries picker_id prompt_title silent w)
     = Return selected)
  /\ (forall e : exn,
        fst (prompt rt entries picker_id prompt_title silent w) <> Raise e)
  /\ (forall (pickers : list (string * Preset.t))
        (strategies : list (string * strategy_value)),
        (forall cfg, dict_get pickers (strip picker_id) = Some cfg ->
                     Preset.strategy cfg <> Some None) ->
        exists selected : option string,
          fst (prompt_in rt pickers strategies entries picker_id prompt_title
                 silent w) = Return selected).
Proof.
  assert (Hbuiltin :
    exists selected : option string,
      fst (prompt rt entries picker_id prompt_title silent w)
      = Return selected).
  { apply prompt_in_returns. intros cfg. apply PICKERS_strategies. }
  split; [exact Hbuiltin|]. split.
  - intros e He. destruct Hbuiltin as [selected Hsel]. congruence.
  - intros pickers strategies Hnull. now apply prompt_in_returns.
Qed.

Lemma prompt_never_raises_witness :
  exists selected : option string,
    fst (prompt_in (exits 0 EmptyString EmptyString)
           [("boom",
             Preset.Make (Some (Some "explode")) None None None None None)]
           [("explode",
             failing_executor (Exn (OtherException "KeyError") "'x'"))]
           ["a"] "boom" "Pick one" false fresh)
    = Return selected.
Proof.
  apply (prompt_never_raises (exits 0 EmptyString EmptyString) ["a"] "boom"
           "Pick one" false fresh).
  intros cfg. cbn [dict_get strip lstrip rstrip isspace String.eqb].
  intros [= <-]. discriminate.
Defined.

Example prompt_in_failing_executor :
  prompt_in (exits 0 EmptyString EmptyString)
    [("boom", Preset.Make (Some (Some "explode")) None None None None None)]
    [("explode", failing_executor (Exn (OtherException "KeyError") "'x'"))]
    ["a"] "boom" "Pick one" true fresh
  = (Return None, fresh).
Proof. reflexivity. Qed.

(** A preset whose [strategy] is Python's [None] is outside the built-in
    registry; on such a preset [strip] is called on [None] before the [try]
    block is entered. *)
Example prompt_in_null_strategy :
  prompt_in (exits 0 EmptyString EmptyString)
    [("odd", Preset.Make (Some None) None None None None None)]
    (RUN_STRATEGIES (exits 0 EmptyString EmptyString))
    ["a"] "odd" "Pick one" false fresh
  = (Raise (Exn AttributeError "'NoneType' object has no attribute 'strip'"),
     fresh).
Proof. reflexivity. Qed.

Lemma join_contains (sep : string) (l : list string) (k : string) :
  In k l -> contains (join sep l) k.
Proof.
  induction l as [|x rest IH]; [intros []|].
  intros [->|Hin].
  - destruct rest; cbn [join].
    + apply contains_refl.
    + apply contains_app_r, contains_refl.
  - destruct rest as [|y rest]; [destruct Hin|].
    change (join sep (x :: y :: rest))
      with (x ++ sep ++ join sep (y :: rest)).
    apply contains_app_l, contains_app_l, IH, Hin.
Qed.

(** C2, as stated, fails when the caller sets the silence flag: an unknown
    identifier then gives [None] and nothing at all is emitted. *)
Lemma prompt_silent_configuration_error_emits_nothing :
  dict_get PICKERS (strip "nope") = None
  /\ prompt (exits 0 EmptyString EmptyString) ["a"; "b"] "nope"
       "Select candidate" true fresh
     = (Return None, fresh)
  /\ trace (snd (prompt (exits 0 EmptyString EmptyString) ["a"; "b"] "nope"
                   "Select candidate" true fresh)) = [].
Proof. repeat split. Qed.

(** C2, amended: on every configuration error [prompt] returns [None]
    without raising and without calling any executor; unless the silence
    flag is set it prints exactly one diagnostic on stderr, and with the
    flag set it prints nothing.  For an unknown identifier the diagnostic
    lists every key of the preset registry. *)
Theorem prompt_configuration_error
  (rt : runtime) (pickers : list (string * Preset.t))
  (strategies : list (string * strategy_value)) (entries : list string)
  (picker_id prompt_title : string) (silent : bool) (w : world) :
  configuration_error pickers strategies picker_id ->
  exists msg : string,
    prompt_in rt pickers strategies entries picker_id prompt_title silent w
    = (Return None, if silent then w else after w [Stderr msg])
    /\ (dict_get pickers (strip picker_id) = None ->
        msg = unknown_preset_diagnostic pickers picker_id
        /\ forall k, In k (keys pickers) -> contains msg k).
Proof.
  intros [Hnone | cfg Hcfg Hmissing | cfg strat Hcfg Hstrat Hblank
          | cfg strat Hcfg Hstrat Hnot];
    unfold prompt_in.
  - rewrite Hnone, get_print_then_None. eexists. split; [reflexivity|].
    intros _. split; [reflexivity|]. intros k Hk.
    do 4 apply contains_app_l. apply contains_app_r.
    now apply join_contains.
  - rewrite Hcfg, Hmissing, bind_ret.
    change (negb (truthy (strip EmptyString))) with true. cbn iota.
    rewrite get_print_then_None. eexists. split; [reflexivity|].
    intros Habs. congruence.
  - rewrite Hcfg, Hstrat, bind_ret, Hblank. cbn [truthy negb].
    rewrite get_print_then_None. eexists. split; [reflexivity|].
    intros Habs. congruence.
  - rewrite Hcfg, Hstrat, bind_ret.
    destruct (negb (truthy (strip strat))).
    { rewrite get_print_then_None. eexists. split; [reflexivity|].
      intros Habs. congruence. }
    destruct (dict_get strategies (strip strat)) as [[executor|[|]]|].
    + exfalso. now apply (Hnot executor).
    + rewrite get_print_then_None. eexists. split; [reflexivity|].
      intros Habs. congruence.
    + rewrite get_print_then_None. eexists. split; [reflexivity|].
      intros Habs. congruence.
    + rewrite get_print_then_None. eexists. split; [reflexivity|].
      intros Habs. congruence.
Qed.

Lemma prompt_configuration_error_witness :
  configuration_error PICKERS
    (RUN_STRATEGIES (exits 0 EmptyString EmptyString)) " nope "
  /\ exists msg : string,
       prompt (exits 0 EmptyString EmptyString) ["a"; "b"] " nope "
         "Select candidate" false fresh
       = (Return None, World None [Stderr msg])
       /\ (dict_get PICKERS (strip " nope ") = None ->
           msg = unknown_preset_diagnostic PICKERS " nope "
           /\ forall k, In k (keys PICKERS) -> contains msg k).
Proof.
  split.
  - apply unknown_identifier. reflexivity.
  - apply (prompt_configuration_error (exits 0 EmptyString EmptyString)
             PICKERS (RUN_STRATEGIES (exits 0 EmptyString EmptyString))
             ["a"; "b"] " nope " "Select candidate" false fresh).
    apply unknown_identifier. reflexivity.
Defined.

(** The three kinds of configuration error on concrete registries. *)
Example prompt_unknown_identifier :
  prompt (exits 0 EmptyString EmptyString) ["a"] "nope" "Pick one" false
    fresh
  = (Return None,
     World None
       [Stderr ("Argument 'nope' is not the name of an existing picker "
                ++ "preset.Valid names are: 'default, fzf, zenity'")]).
Proof. reflexivity. Qed.

Example prompt_blank_strategy :
  prompt_in (exits 0 EmptyString EmptyString)
    [("odd", Preset.Make (Some (Some "  ")) None None None None None)]
    (RUN_STRATEGIES (exits 0 EmptyString EmptyString))
    ["a"] "odd" "Pick one" false fresh
  = (Return None,
     World None
       [Stderr ("Internal Error: Preset picker config odd "
                ++ "has an empty or null 'strategy' field.")]).
Proof. reflexivity. Qed.

Example prompt_unknown_strategy :
  prompt_in (exits 0 EmptyString EmptyString)
    [("odd", Preset.Make (Some (Some "dmenu")) None None None None None)]
    (RUN_STRATEGIES (exits 0 EmptyString EmptyString))
    ["a"] "odd" "Pick one" false fresh
  = (Return None,
     World None
       [Stderr ("Internal Error: Preset picker config odd"
                ++ "uses an unknown strategy called 'dmenu'")]).
Proof. reflexivity. Qed.

Example prompt_strategy_not_a_function :
  prompt_in (exits 0 EmptyString EmptyString)
    [("odd", Preset.Make (Some (Some "dmenu")) None None None None None)]
    [("dmenu", Object_ true)]
    ["a"] "odd" "Pick one" false fresh
  = (Return None,
     World None
       [Stderr ("Internal Error: Strategy 'dmenu' points to a value that is"
                ++ "not a function.")]).
Proof. reflexivity. Qed.

(** ** Facts about [splitlines], [indent] and [str_of_int] *)

Lemma concat_cons (x : string) (xs : list string) :
  String.concat EmptyString (x :: xs) = x ++ String.concat EmptyString xs.
Proof.
  destruct xs; cbn [String.concat]; [now rewrite append_nil_r | reflexivity].
Qed.

Lemma splitlines_line (l rest : string) :
  single_line l = true ->
  splitlines (l ++ String LF rest)
  = (l ++ String LF EmptyString) :: splitlines rest.
Proof.
  unfold single_line. induction l as [|c l IH]; intros Hl.
  - reflexivity.
  - cbn [all_chars] in Hl. apply andb_true_iff in Hl as [Hc Hl].
    apply negb_true_iff in Hc.
    change (splitlines (String c (l ++ String LF rest))
            = String c (l ++ String LF EmptyString) :: splitlines rest).
    cbn [splitlines]. rewrite Hc, (IH Hl). reflexivity.
Qed.

Lemma splitlines_single (l : string) :
  single_line l = true -> l <> EmptyString -> splitlines l = [l].
Proof.
  unfold single_line. induction l as [|c l IH]; intros Hl Hne.
  - congruence.
  - cbn [all_chars] in Hl. apply andb_true_iff in Hl as [Hc Hl].
    apply negb_true_iff in Hc. cbn [splitlines]. rewrite Hc.
    destruct l as [|d l].
    + reflexivity.
    + rewrite (IH Hl) by discriminate. reflexivity.
Qed.

Lemma rstrip_keeps_nonspace (c : ascii) (s : string) :
  isspace c = false -> truthy (rstrip (String c s)) = true.
Proof.
  intros Hc. cbn [rstrip]. destruct (rstrip s); [rewrite Hc|]; reflexivity.
Qed.

Lemma strip_keeps_nonspace (c : ascii) (s : string) :
  isspace c = false -> truthy (strip (String c s)) = true.
Proof.
  intros Hc. unfold strip. cbn [lstrip]. rewrite Hc.
  now apply rstrip_keeps_nonspace.
Qed.

Lemma indent_single_line_contains (s prefix : string) :
  single_line s = true -> contains (indent s prefix) s.
Proof.
  intros Hs. destruct s as [|c s].
  - apply contains_refl.
  - unfold indent. rewrite splitlines_single by (assumption || discriminate).
    cbn [map String.concat]. unfold indent_line.
    destruct (truthy _).
    + apply contains_app_l, contains_refl.
    + apply contains_refl.
Qed.

Lemma uint_single_line (d : Decimal.uint) :
  single_line (NilEmpty.string_of_uint d) = true.
Proof. induction d; cbn; auto. Qed.

Lemma str_of_int_single_line (n : Z) : single_line (str_of_int n) = true.
Proof.
  unfold str_of_int, NilZero.string_of_int, NilZero.string_of_uint.
  destruct (Z.to_int n) as [d|d]; destruct d;
    try reflexivity; apply (uint_single_line (_ d)) || apply uint_single_line.
Qed.

Lemma indent_exit_code_text (proc : CompletedProcess) :
  indent (exit_code_text proc) _INDENT
  = _INDENT ++ "Exit code " ++ str_of_int (returncode proc) ++ ": "
    ++ String LF
         (indent (str_or (strip (stderr proc)) "No error message returned.")
            _INDENT).
Proof.
  unfold exit_code_text, indent.
  set (code := str_of_int (returncode proc)).
  set (err := str_or (strip (stderr proc)) "No error message returned.").
  replace ("Exit code " ++ code ++ ": " ++ String LF err)
    with (("Exit code " ++ code ++ ": ") ++ String LF err)
    by now rewrite !append_assoc.
  rewrite splitlines_line.
  - cbn [map]. rewrite concat_cons. unfold indent_line at 1.
    cbn [append]. rewrite strip_keeps_nonspace by reflexivity.
    unfold _INDENT. cbn [append]. rewrite !append_assoc. reflexivity.
  - unfold single_line. rewrite !all_chars_app.
    fold (single_line code). unfold code.
    now rewrite str_of_int_single_line.
Qed.

(** C4, as stated, fails twice.  The error that leaves the executor is the
    launch-failure wrapper, which indents the text it wraps line by line: a
    standard error of two lines is not in its message as it stands.  And
    with the silence flag set the dispatcher logs nothing. *)
Lemma run_shell_exit_code_error_is_wrapped_and_silenceable :
  strip (String "a" (String LF "b")) = String "a" (String LF "b")
  /\ (exists msg,
        fst (_run_shell (exits 2 EmptyString (String "a" (String LF "b")))
               ["x"; "y"] "Pick one" "zenity" None (Some [0%Z]) (Some [1%Z])
               " " fresh)
        = Raise (Exn RuntimeError msg)
        /\ ~ contains msg (String "a" (String LF "b")))
  /\ prompt (exits 2 EmptyString "boom") ["x"; "y"] "zenity" "Pick one" true
       fresh
     = (Return None,
        World None
          [Launch ["zenity"; "--list"; "--title=nix-alien: Choose a package";
                   "--text=Pick one"; "--column=Libraries"] "x y"]).
Proof.
  split; [reflexivity|]. split; [|reflexivity].
  eexists. split; [reflexivity|].
  intros H. apply is_infix_iff in H. vm_compute in H. discriminate.
Qed.

(** C4, amended: for a subprocess whose exit code is in neither list, the
    shell executor fails with a [RuntimeError]: the launch-failure wrapper
    around the text [Exit code <code>: ] followed, on the next lines, by
    the trimmed standard error, or by [No error message returned.] when that
    is empty, the whole indented line by line.  The message embeds the exit
    code, and embeds the trimmed standard error as it stands when that is a
    single line.  The dispatcher then returns [None] and, unless the silence
    flag is set, logs the error. *)
Theorem run_shell_unexpected_exit_code
  (rt : runtime) (entries : list string) (title command : string)
  (args : option (list string)) (success ignore : option (list Z))
  (sep : string) (w : world) (proc : CompletedProcess) :
  strip command <> EmptyString ->
  subprocess_run rt (full_cmd title command args) (join sep entries)
  = Return proc ->
  int_in (returncode proc) (or_nil success) = false ->
  int_in (returncode proc) (or_nil ignore) = false ->
  _run_shell rt entries title command args success ignore sep w
  = (Raise (launch_failure title command args (exit_code_text proc)),
     after w [Launch (full_cmd title command args) (join sep entries)])
  /\ exn_class (launch_failure title command args (exit_code_text proc))
     = RuntimeError
  /\ (exists header,
        exn_str (launch_failure title command args (exit_code_text proc))
        = header ++ "  Exit code " ++ str_of_int (returncode proc) ++ ": "
          ++ String LF
               (indent (if truthy (strip (stderr proc))
                        then strip (stderr proc)
                        else "No error message returned.") "  "))
  /\ contains
       (exn_str (launch_failure title command args (exit_code_text proc)))
       ("Exit code " ++ str_of_int (returncode proc))
  /\ (single_line (strip (stderr proc)) = true ->
      contains
        (exn_str (launch_failure title command args (exit_code_text proc)))
        (if truthy (strip (stderr proc))
         then strip (stderr proc)
         else "No error message returned."))
  /\ (forall (pickers : list (string * Preset.t)) (picker_id strat : string)
        (silent : bool),
        dict_get pickers (strip picker_id)
        = Some (Preset.Make (Some (Some strat)) (Some command) (Some args)
                  (Some success) (Some ignore) (Some sep)) ->
        strip strat = "shell" ->
        prompt_in rt pickers (RUN_STRATEGIES rt) entries picker_id title
          silent w
        = (Return None,
           after w
             (Launch (full_cmd title command args) (join sep entries)
              :: (if silent then []
                  else [Stderr
                          (executor_diagnostic rt (strip picker_id) "shell"
                             title
                             (Preset.Make (Some (Some strat)) (Some command)
                                (Some args) (Some success) (Some ignore)
                                (Some sep))
                             (launch_failure title command args
                                (exit_code_text proc)))])))).
Proof.
  intros Hcmd Hrun Hs Hi.
  assert (Hexec :
    _run_shell rt entries title command args success ignore sep w
    = (Raise (launch_failure title command args (exit_code_text proc)),
       after w [Launch (full_cmd title command args) (join sep entries)])).
  { rewrite run_shell_launched by now apply truthy_iff.
    rewrite Hrun. cbn [shell_outcome]. now rewrite Hs, Hi. }
  assert (Hmsg :
    exn_str (launch_failure title command args (exit_code_text proc))
    = ("Failed to execute shell command: " ++ strip command ++ " "
       ++ join " " (map (render title) (or_nil args)) ++ "'"
       ++ String LF EmptyString)
      ++ "  Exit code " ++ str_of_int (returncode proc) ++ ": "
      ++ String LF
           (indent (if truthy (strip (stderr proc))
                    then strip (stderr proc)
                    else "No error message returned.") "  ")).
  { cbn [launch_failure exn_str]. rewrite indent_exit_code_text.
    rewrite !append_assoc. reflexivity. }
  split; [exact Hexec|]. split; [reflexivity|].
  split; [eexists; exact Hmsg|]. split; [|split].
  - rewrite Hmsg. apply contains_app_l.
    exists "  ", (": " ++ String LF
                    (indent (if truthy (strip (stderr proc))
                             then strip (stderr proc)
                             else "No error message returned.") "  ")).
    now rewrite !append_assoc.
  - intros Hline. rewrite Hmsg.
    do 4 apply contains_app_l. apply contains_cons.
    apply indent_single_line_contains.
    destruct (truthy (strip (stderr proc))); [exact Hline | reflexivity].
  - intros pickers picker_id strat silent Hcfg Hstrat.
    rewrite (prompt_in_swallows rt pickers (RUN_STRATEGIES rt) entries
               picker_id title silent w
               (after w [Launch (full_cmd title command args)
                           (join sep entries)])
               _ strat (call_run_shell rt)
               (launch_failure title command args (exit_code_text proc))
               Hcfg eq_refl).
    + rewrite Hstrat. destruct silent; unfold after; cbn [trace _pyfzf_prompt];
        rewrite <- ?app_assoc; reflexivity.
    + rewrite Hstrat. discriminate.
    + rewrite Hstrat. reflexivity.
    + exact Hexec.
Qed.

Lemma run_shell_unexpected_exit_code_witness :
  fst (_run_shell (exits 2 EmptyString "boom") ["x"; "y"] "Pick one"
         "zenity" (Some ["--text=$title"]) (Some [0%Z]) (Some [1%Z]) " "
         fresh)
  = Raise (Exn RuntimeError
      ("Failed to execute shell command: zenity --text=Pick one'"
       ++ String LF ("  Exit code 2: " ++ String LF "  boom")))
  /\ prompt_in (exits 2 EmptyString "boom")
       [("zenity",
         Preset.Make (Some (Some "shell")) (Some "zenity")
           (Some (Some ["--text=$title"])) (Some (Some [0%Z]))
           (Some (Some [1%Z])) (Some " "))]
       (RUN_STRATEGIES (exits 2 EmptyString "boom"))
       ["x"; "y"] "zenity" "Pick one" false fresh
     = (Return None,
        World None
          [Launch ["zenity"; "--text=Pick one"] "x y";
           Stderr
             ("Picker preset 'zenity' (with strategy 'shell') "
              ++ "(called with params: title=Pick one, config={...}) "
              ++ "raised the following error:"
              ++ String LF
                   ("  Failed to execute shell command: "
                    ++ "zenity --text=Pick one'"
                    ++ String LF
                         ("    Exit code 2: " ++ String LF "    boom")))]).
Proof.
  destruct (run_shell_unexpected_exit_code (exits 2 EmptyString "boom")
              ["x"; "y"] "Pick one" "zenity" (Some ["--text=$title"])
              (Some [0%Z]) (Some [1%Z]) " " fresh
              (Completed 2 EmptyString "boom"))
    as (Hexec & _ & _ & _ & _ & Hprompt).
  - discriminate.
  - reflexivity.
  - reflexivity.
  - reflexivity.
  - split.
    + rewrite Hexec. reflexivity.
    + rewrite (Hprompt
                 [("zenity",
                   Preset.Make (Some (Some "shell")) (Some "zenity")
                     (Some (Some ["--text=$title"])) (Some (Some [0%Z]))
                     (Some (Some [1%Z])) (Some " "))]
                 "zenity" "shell" false); reflexivity.
Defined.

(** The spec's example for the built-in graphical dialog: exit code 1 is a
    cancellation, exit code 2 an error that is logged. *)
Example prompt_zenity_cancelled :
  prompt (exits 1 EmptyString EmptyString) ["x"; "y"] "zenity" "Pick one"
    false fresh
  = (Return None,
     World None
       [Launch ["zenity"; "--list"; "--title=nix-alien: Choose a package";
                "--text=Pick one"; "--column=Libraries"] "x y"]).
Proof. reflexivity. Qed.

Example prompt_zenity_exit_code_2 :
  exists diagnostic,
    prompt (exits 2 EmptyString EmptyString) ["x"; "y"] "zenity" "Pick one"
      false fresh
    = (Return None,
       World None
         [Launch ["zenity"; "--list"; "--title=nix-alien: Choose a package";
                  "--text=Pick one"; "--column=Libraries"] "x y";
          Stderr diagnostic])
    /\ contains diagnostic "Exit code 2"
    /\ contains diagnostic "No error message returned.".
Proof.
  eexists. split; [cbv; reflexivity|].
  split; apply is_infix_iff; reflexivity.
Qed.

(** ** Facts about [safe_substitute] *)

Lemma span_id_app (s name rest : string) :
  span_id s = (name, rest) -> s = name ++ rest.
Proof.
  revert name rest. induction s as [|c s IH]; intros name rest; cbn [span_id].
  - intros [= <- <-]. reflexivity.
  - destruct (is_id_char c).
    + destruct (span_id s) as [name' rest'] eqn:Hs.
      intros [= <- <-]. cbn [append]. now rewrite (IH name' rest').
    + intros [= <- <-]. reflexivity.
Qed.

Lemma span_id_stop (rest : string) :
  starts_with_id_char rest = false -> span_id rest = (EmptyString, rest).
Proof.
  destruct rest as [|c rest]; cbn [starts_with_id_char span_id].
  - reflexivity.
  - now intros ->.
Qed.

Lemma span_id_name (name rest : string) :
  all_chars is_id_char name = true ->
  starts_with_id_char rest = false ->
  span_id (name ++ rest) = (name, rest).
Proof.
  intros Hname Hrest. induction name as [|c name IH].
  - now apply span_id_stop.
  - cbn [all_chars] in Hname. apply andb_true_iff in Hname as [Hc Hname].
    cbn [append span_id]. now rewrite Hc, (IH Hname).
Qed.

(** The four ways a delimiter is matched, in the pattern's order. *)
Lemma at_delimiter_cases (mapping : list (string * string))
  (rest out r : string) :
  at_delimiter mapping rest = (out, r) ->
  (rest = String DOLLAR r /\ out = String DOLLAR EmptyString)
  \/ (exists name,
        rest = name ++ r
        /\ out = convert mapping name (String DOLLAR name))
  \/ (exists name,
        rest = String "{" (name ++ String "}" r)
        /\ out = convert mapping name
                   (String DOLLAR (String "{" (name ++ "}"))))
  \/ (r = rest /\ out = String DOLLAR EmptyString).
Proof.
  unfold at_delimiter. destruct rest as [|c rest'].
  { intros [= <- <-]. auto. }
  destruct (Ascii.eqb c DOLLAR) eqn:Hdollar.
  { apply Ascii.eqb_eq in Hdollar. subst c. intros [= <- <-]. auto. }
  destruct (is_id_start c).
  { destruct (span_id (String c rest')) as [name r'] eqn:Hspan.
    intros [= <- <-]. right. left. exists name.
    split; [now apply span_id_app | reflexivity]. }
  destruct (Ascii.eqb c "{" && starts_with_id rest')%bool eqn:Hbrace.
  2: { intros [= <- <-]. auto. }
  apply andb_true_iff in Hbrace as [Hc _]. apply Ascii.eqb_eq in Hc. subst c.
  destruct (span_id rest') as [name r'] eqn:Hspan.
  apply span_id_app in Hspan.
  destruct r' as [|c' r''].
  { intros [= <- <-]. auto. }
  destruct (Ascii.eqb c' "}") eqn:Hclose.
  2: { intros [= <- <-]. auto. }
  apply Ascii.eqb_eq in Hclose. subst c'.
  intros [= <- <-]. right. right. left. exists name.
  split; [now rewrite Hspan | reflexivity].
Qed.

Lemma at_delimiter_shorter (mapping : list (string * string))
  (rest out r : string) :
  at_delimiter mapping rest = (out, r) ->
  String.length r <= String.length rest.
Proof.
  intros H. apply at_delimiter_cases in H.
  destruct H as [[-> _] | [[name [-> _]] | [[name [-> _]] | [-> _]]]];
    cbn [String.length]; rewrite ?length_append; cbn [String.length]; lia.
Qed.

(** Fuel beyond the length of the text changes nothing. *)
Lemma sub_from_fuel (mapping : list (string * string)) (n k : nat)
  (s : string) :
  String.length s <= n -> String.length s <= k ->
  sub_from n mapping s = sub_from k mapping s.
Proof.
  revert k s. induction n as [|n IH]; intros k s Hn Hk.
  - destruct s; [|cbn in Hn; lia]. destruct k; reflexivity.
  - destruct k as [|k].
    + destruct s; [reflexivity | cbn in Hk; lia].
    + destruct s as [|c rest]; [reflexivity|].
      cbn [String.length] in Hn, Hk. cbn [sub_from].
      destruct (Ascii.eqb c DOLLAR).
      * destruct (at_delimiter mapping rest) as [out r] eqn:Hat.
        apply at_delimiter_shorter in Hat.
        f_equal. apply IH; lia.
      * f_equal. apply IH; lia.
Qed.

Lemma safe_substitute_plain (mapping : list (string * string)) (c : ascii)
  (rest : string) :
  Ascii.eqb c DOLLAR = false ->
  safe_substitute (String c rest) mapping
  = String c (safe_substitute rest mapping).
Proof.
  intros Hc. unfold safe_substitute. cbn [String.length sub_from].
  now rewrite Hc.
Qed.

Lemma safe_substitute_delimiter (mapping : list (string * string))
  (rest out r : string) :
  at_delimiter mapping rest = (out, r) ->
  safe_substitute (String DOLLAR rest) mapping
  = out ++ safe_substitute r mapping.
Proof.
  intros Hat. unfold safe_substitute. cbn [String.length sub_from].
  rewrite Ascii.eqb_refl, Hat. f_equal.
  apply sub_from_fuel; [now apply at_delimiter_shorter in Hat | lia].
Qed.

Lemma render_plain_prefix (title pre rest : string) :
  no_dollar pre = true ->
  render title (pre ++ rest) = pre ++ render title rest.
Proof.
  unfold no_dollar, render. induction pre as [|c pre IH]; intros Hpre.
  - reflexivity.
  - cbn [all_chars] in Hpre. apply andb_true_iff in Hpre as [Hc Hpre].
    apply negb_true_iff in Hc. cbn [append].
    now rewrite safe_substitute_plain, (IH Hpre).
Qed.

Lemma id_start_not_dollar (c : ascii) :
  is_id_start c = true -> Ascii.eqb c DOLLAR = false.
Proof.
  intros Hc. destruct (Ascii.eqb_spec c DOLLAR) as [->|]; [|reflexivity].
  discriminate Hc.
Qed.

Lemma convert_title (title name matched : string) :
  convert [("title", title)] name matched
  = if String.eqb "title" name then title else matched.
Proof. unfold convert. cbn [dict_get]. now destruct (String.eqb "title" name). Qed.

Lemma at_delimiter_named (title name rest : string) :
  is_identifier name = true ->
  starts_with_id_char rest = false ->
  at_delimiter [("title", title)] (name ++ rest)
  = (if String.eqb "title" name then title else String DOLLAR name, rest).
Proof.
  unfold is_identifier. intros Hname Hrest.
  apply andb_true_iff in Hname as [Hstart Hchars].
  destruct name as [|c name]; [discriminate Hstart|].
  cbn [starts_with_id] in Hstart.
  change (String c name ++ rest) with (String c (name ++ rest)).
  unfold at_delimiter.
  rewrite (id_start_not_dollar c Hstart), Hstart.
  change (String c (name ++ rest)) with (String c name ++ rest).
  rewrite span_id_name by assumption.
  now rewrite convert_title.
Qed.

Lemma at_delimiter_braced (title name rest : string) :
  is_identifier name = true ->
  at_delimiter [("title", title)] (String "{" (name ++ String "}" rest))
  = (if String.eqb "title" name then title
     else String DOLLAR (String "{" (name ++ "}")), rest).
Proof.
  unfold is_identifier. intros Hname.
  apply andb_true_iff in Hname as [Hstart Hchars].
  unfold at_delimiter.
  change (Ascii.eqb "{" DOLLAR) with false.
  change (is_id_start "{") with false.
  assert (Hs : starts_with_id (name ++ String "}" rest) = true).
  { destruct name; [discriminate Hstart | exact Hstart]. }
  rewrite Hs. cbn [Ascii.eqb andb].
  change (Ascii.eqb "{" "{") with true. cbn [andb].
  rewrite span_id_name by (assumption || reflexivity).
  change (Ascii.eqb "}" "}") with true. cbn iota.
  now rewrite convert_title.
Qed.

(** A template holding neither the escape nor a [title] placeholder is
    rendered as it is. *)
Lemma render_other_text (title : string) (n : nat) (s : string) :
  String.length s <= n ->
  ~ contains s "$$" -> ~ contains s "$title" -> ~ contains s "${title}" ->
  sub_from n [("title", title)] s = s.
Proof.
  revert s. induction n as [|n IH]; intros s Hlen Hesc Hnamed Hbraced.
  - reflexivity.
  - destruct s as [|c rest]; [reflexivity|].
    cbn [String.length] in Hlen. cbn [sub_from].
    destruct (Ascii.eqb c DOLLAR) eqn:Hc.
    + apply Ascii.eqb_eq in Hc. subst c.
      destruct (at_delimiter [("title", title)] rest) as [out r] eqn:Hat.
      pose proof (at_delimiter_shorter _ _ _ _ Hat) as Hshort.
      apply at_delimiter_cases in Hat.
      destruct Hat as [[-> _] | [[name [-> ->]] | [[name [-> ->]] | [-> ->]]]].
      * exfalso. apply Hesc. exists EmptyString, r. reflexivity.
      * rewrite convert_title.
        destruct (String.eqb_spec "title" name) as [<-|Hne].
        { exfalso. apply Hnamed. exists EmptyString, r. reflexivity. }
        rewrite IH; [reflexivity | rewrite length_append in Hlen; lia | | | ];
          intros Hc; [apply Hesc | apply Hnamed | apply Hbraced];
          apply (contains_app_l _ _ (String DOLLAR name)), Hc.
      * rewrite convert_title.
        destruct (String.eqb_spec "title" name) as [<-|Hne].
        { exfalso. apply Hbraced. exists EmptyString, r. reflexivity. }
        rewrite IH.
        -- cbn [append]. now rewrite append_assoc.
        -- cbn [String.length] in Hlen. rewrite length_append in Hlen.
           cbn [String.length] in Hlen. lia.
        -- intros Hc. apply Hesc.
           apply (contains_app_l _ _
                    (String DOLLAR (String "{" (name ++ "}")))) in Hc.
           cbn [append] in Hc. now rewrite append_assoc in Hc.
        -- intros Hc. apply Hnamed.
           apply (contains_app_l _ _
                    (String DOLLAR (String "{" (name ++ "}")))) in Hc.
           cbn [append] in Hc. now rewrite append_assoc in Hc.
        -- intros Hc. apply Hbraced.
           apply (contains_app_l _ _
                    (String DOLLAR (String "{" (name ++ "}")))) in Hc.
           cbn [append] in Hc. now rewrite append_assoc in Hc.
      * cbn [append]. f_equal.
        apply IH; [lia | | | ]; intros Hc;
          [apply Hesc | apply Hnamed | apply Hbraced];
          now apply contains_cons.
    + f_equal. apply IH; [lia | | | ]; intros Hc';
        [apply Hesc | apply Hnamed | apply Hbraced];
        now apply contains_cons.
Qed.

Lemma span_id_spec (s name r : string) :
  span_id s = (name, r) ->
  s = name ++ r /\ all_chars is_id_char name = true
  /\ starts_with_id_char r = false.
Proof.
  revert name r. induction s as [|c s IH]; intros name r; cbn [span_id].
  - intros [= <- <-]. repeat split.
  - destruct (is_id_char c) eqn:Hc.
    + destruct (span_id s) as [name' r'] eqn:Hs.
      intros [= <- <-]. destruct (IH name' r' eq_refl) as (-> & Hn & Hr).
      cbn [append all_chars]. rewrite Hc, Hn. repeat split. exact Hr.
    + intros [= <- <-]. repeat split. exact Hc.
Qed.

Lemma at_delimiter_lone (mapping : list (string * string)) (rest : string) :
  begins_placeholder rest = false ->
  at_delimiter mapping rest = (String DOLLAR EmptyString, rest).
Proof.
  unfold begins_placeholder, at_delimiter.
  destruct rest as [|c r]; [reflexivity|].
  destruct (Ascii.eqb c DOLLAR); [discriminate|].
  destruct (is_id_start c); [discriminate|]. cbn [orb].
  destruct (Ascii.eqb c "{" && starts_with_id r)%bool; [|reflexivity].
  cbn [andb]. destruct (span_id r) as [name [|c' r'']]; cbn [snd].
  - reflexivity.
  - now intros ->.
Qed.

Lemma render_rules (title : string) : rendering_rules title (render title).
Proof.
  unfold rendering_rules, render. split; [reflexivity|].
  split; [intros c rest Hc; now apply safe_substitute_plain|].
  split.
  { intros rest.
    change ("$$" ++ rest) with (String DOLLAR (String DOLLAR rest)).
    now rewrite (safe_substitute_delimiter _ _ "$" rest). }
  split.
  { intros name rest Hname Hrest.
    change ("$" ++ name ++ rest) with (String DOLLAR (name ++ rest)).
    rewrite (safe_substitute_delimiter _ _ _ rest
               (at_delimiter_named title name rest Hname Hrest)).
    now rewrite String.eqb_sym. }
  split.
  { intros name rest Hname.
    change ("${" ++ name ++ "}" ++ rest)
      with (String DOLLAR (String "{" (name ++ String "}" rest))).
    rewrite (safe_substitute_delimiter _ _ _ rest
               (at_delimiter_braced title name rest Hname)).
    rewrite String.eqb_sym.
    destruct (String.eqb name "title"); [reflexivity|].
    cbn [append]. now rewrite append_assoc. }
  intros rest Hrest.
  change ("$" ++ rest) with (String DOLLAR rest).
  now rewrite (safe_substitute_delimiter _ _ _ rest
                 (at_delimiter_lone _ rest Hrest)).
Qed.

(** What can follow a dollar sign, and that what is left to render is
    shorter. *)
Lemma dollar_shapes (rest : string) :
  (exists r, rest = String DOLLAR r)
  \/ (exists name r,
        rest = name ++ r /\ is_identifier name = true
        /\ starts_with_id_char r = false)
  \/ (exists name r,
        rest = String "{" (name ++ String "}" r)
        /\ is_identifier name = true)
  \/ begins_placeholder rest = false.
Proof.
  destruct rest as [|c r]; [now repeat right|].
  destruct (Ascii.eqb c DOLLAR) eqn:Hdollar.
  { apply Ascii.eqb_eq in Hdollar. subst c. left. now exists r. }
  destruct (is_id_start c) eqn:Hstart.
  { right. left.
    destruct (span_id (String c r)) as [name r'] eqn:Hspan.
    pose proof (span_id_spec _ _ _ Hspan) as (Heq & Hchars & Hstop).
    exists name, r'. split; [exact Heq|]. split; [|exact Hstop].
    unfold is_identifier. rewrite Hchars, andb_true_r.
    cbn [span_id] in Hspan. unfold is_id_char in Hspan at 1.
    rewrite Hstart in Hspan. cbn [orb] in Hspan.
    destruct (span_id r). injection Hspan as <- _. exact Hstart. }
  destruct (Ascii.eqb c "{" && starts_with_id r)%bool eqn:Hbrace.
  2: { repeat right. cbn [begins_placeholder].
       now rewrite Hdollar, Hstart, Hbrace. }
  destruct (span_id r) as [name r'] eqn:Hspan.
  destruct r' as [|c' r''].
  { repeat right. cbn [begins_placeholder].
    now rewrite Hdollar, Hstart, Hbrace, Hspan. }
  destruct (Ascii.eqb c' "}") eqn:Hclose.
  2: { repeat right. cbn [begins_placeholder].
       now rewrite Hdollar, Hstart, Hbrace, Hspan; cbn [snd orb andb];
         rewrite Hclose. }
  right. right. left.
  apply andb_true_iff in Hbrace as [Hc Hid].
  apply Ascii.eqb_eq in Hc. apply Ascii.eqb_eq in Hclose. subst c c'.
  pose proof (span_id_spec _ _ _ Hspan) as (Heq & Hchars & _).
  exists name, r''. split; [now rewrite Heq|].
  unfold is_identifier. rewrite Hchars, andb_true_r.
  destruct r as [|d r0]; [discriminate Hid|].
  cbn [starts_with_id] in Hid. cbn [span_id] in Hspan.
  unfold is_id_char in Hspan at 1. rewrite Hid in Hspan. cbn [orb] in Hspan.
  destruct (span_id r0). injection Hspan as <- _. exact Hid.
Qed.

(** The rules leave no choice: whatever obeys them is the rendering. *)
Lemma rendering_rules_unique (title : string) (f : string -> string) :
  rendering_rules title f ->
  forall template, f template = render title template.
Proof.
  intros (Hnil & Hplain & Hesc & Hnamed & Hbraced & Hlone).
  destruct (render_rules title)
    as (Rnil & Rplain & Resc & Rnamed & Rbraced & Rlone).
  assert (H : forall n t, String.length t <= n -> f t = render title t).
  { induction n as [|n IH]; intros t Hlen.
    - destruct t; [now rewrite Hnil, Rnil | cbn in Hlen; lia].
    - destruct t as [|c rest]; [now rewrite Hnil, Rnil|].
      cbn [String.length] in Hlen.
      destruct (Ascii.eqb c DOLLAR) eqn:Hc.
      2: { rewrite Hplain, Rplain by assumption. f_equal. apply IH. lia. }
      apply Ascii.eqb_eq in Hc. subst c.
      destruct (dollar_shapes rest)
        as [[r ->] | [(name & r & -> & Hid & Hstop)
                     | [(name & r & -> & Hid) | Hnone]]].
      + change (String DOLLAR (String DOLLAR r)) with ("$$" ++ r).
        rewrite Hesc, Resc. f_equal. apply IH.
        cbn [String.length] in Hlen. lia.
      + change (String DOLLAR (name ++ r)) with ("$" ++ name ++ r).
        rewrite Hnamed, Rnamed by assumption. f_equal. apply IH.
        rewrite length_append in Hlen. lia.
      + change (String DOLLAR (String "{" (name ++ String "}" r)))
          with ("${" ++ name ++ "}" ++ r).
        rewrite Hbraced, Rbraced by assumption. f_equal. apply IH.
        cbn [String.length] in Hlen. rewrite length_append in Hlen.
        cbn [String.length] in Hlen. lia.
      + change (String DOLLAR rest) with ("$" ++ rest).
        rewrite Hlone, Rlone by assumption. f_equal. apply IH. lia. }
  intros template. now apply (H (String.length template)).
Qed.

(** C7, as stated, fails on the escape sequence: two dollar signs are not a
    placeholder, and they are rendered as one. *)
Lemma render_escape_is_changed :
  render "Pick one" "$$" = "$"
  /\ render "Pick one" "$$" <> "$$"
  /\ render "Pick one" "50$$ off" = "50$ off".
Proof. repeat split. discriminate. Qed.

(** C7, amended: the rendering of an argument template replaces each
    placeholder [$title] (the longest identifier after the dollar sign
    being [title]) and each [${title}] with the title verbatim, renders the
    escape [$$] as one dollar sign, and leaves all other text unchanged:
    text without dollar sign, placeholders of another name, bare or braced,
    a dollar sign that begins neither an escape nor a placeholder, after
    which the rendering goes on, and any template that holds neither the
    escape nor a [title] placeholder.  The template [$title] with title
    [Pick one] renders exactly to [Pick one].  These rules hold at every
    place of every template and they settle its rendering: a function that
    obeys them is the rendering. *)
Theorem render_replaces_title_only (title : string) :
  (forall pre rest,
     no_dollar pre = true ->
     render title (pre ++ rest) = pre ++ render title rest)
  /\ (forall rest,
        starts_with_id_char rest = false ->
        render title ("$title" ++ rest) = title ++ render title rest)
  /\ (forall rest,
        render title ("${title}" ++ rest) = title ++ render title rest)
  /\ (forall rest, render title ("$$" ++ rest) = "$" ++ render title rest)
  /\ (forall name rest,
        is_identifier name = true -> name <> "title" ->
        starts_with_id_char rest = false ->
        render title ("$" ++ name ++ rest)
        = "$" ++ name ++ render title rest)
  /\ (forall name rest,
        is_identifier name = true -> name <> "title" ->
        render title ("${" ++ name ++ "}" ++ rest)
        = "${" ++ name ++ "}" ++ render title rest)
  /\ (forall template,
        ~ contains template "$$" -> ~ contains template "$title" ->
        ~ contains template "${title}" ->
        render title template = template)
  /\ render "Pick one" "$title" = "Pick one"
  /\ (forall rest,
        begins_placeholder rest = false ->
        render title ("$" ++ rest) = "$" ++ render title rest)
  /\ rendering_rules title (render title)
  /\ (forall f : string -> string,
        rendering_rules title f ->
        forall template, f template = render title template).
Proof.
  split; [apply render_plain_prefix|].
  split.
  { intros rest Hrest. unfold render.
    change ("$title" ++ rest) with (String DOLLAR ("title" ++ rest)).
    rewrite (safe_substitute_delimiter _ _ title rest); [reflexivity|].
    now rewrite at_delimiter_named. }
  split.
  { intros rest. unfold render.
    change ("${title}" ++ rest)
      with (String DOLLAR (String "{" ("title" ++ String "}" rest))).
    rewrite (safe_substitute_delimiter _ _ title rest); [reflexivity|].
    now rewrite at_delimiter_braced. }
  split.
  { intros rest. unfold render.
    change ("$$" ++ rest) with (String DOLLAR (String DOLLAR rest)).
    now rewrite (safe_substitute_delimiter _ _ "$" rest). }
  split.
  { intros name rest Hname Hne Hrest. unfold render.
    change ("$" ++ name ++ rest) with (String DOLLAR (name ++ rest)).
    rewrite (safe_substitute_delimiter _ _ (String DOLLAR name) rest).
    - reflexivity.
    - rewrite at_delimiter_named by assumption.
      destruct (String.eqb_spec "title" name); congruence. }
  split.
  { intros name rest Hname Hne. unfold render.
    change ("${" ++ name ++ "}" ++ rest)
      with (String DOLLAR (String "{" (name ++ String "}" rest))).
    rewrite (safe_substitute_delimiter _ _
               (String DOLLAR (String "{" (name ++ "}"))) rest).
    - cbn [append]. now rewrite append_assoc.
    - rewrite at_delimiter_braced by assumption.
      destruct (String.eqb_spec "title" name); congruence. }
  split.
  { intros template Hesc Hnamed Hbraced. now apply render_other_text. }
  split; [reflexivity|].
  split; [apply render_rules|].
  split; [apply render_rules | apply rendering_rules_unique].
Qed.

Lemma render_replaces_title_only_witness :
  render "Pick one" "--text=$title" = "--text=Pick one"
  /\ render "Pick one" "$other and ${more}" = "$other and ${more}"
  /\ render "Pick one" "$5 for $title" = "$5 for Pick one".
Proof.
  destruct (render_replaces_title_only "Pick one")
    as (Hplain & Hnamed & _ & _ & _ & _ & Hother & _ & Hlone & _).
  split; [|split].
  - change (render "Pick one" ("--text=" ++ "$title" ++ EmptyString)
            = "--text=Pick one").
    rewrite (Hplain "--text=" ("$title" ++ EmptyString)) by reflexivity.
    rewrite (Hnamed EmptyString) by reflexivity.
    reflexivity.
  - apply Hother; intros H; apply is_infix_iff in H; discriminate H.
  - change (render "Pick one" ("$" ++ "5 for $title") = "$5 for Pick one").
    rewrite (Hlone "5 for $title") by reflexivity.
    change (render "Pick one" ("5 for " ++ "$title" ++ EmptyString))
      with (render "Pick one" "5 for $title").
    change ("$" ++ render "Pick one" ("5 for " ++ "$title" ++ EmptyString)
            = "$5 for Pick one").
    rewrite (Hplain "5 for " ("$title" ++ EmptyString)) by reflexivity.
    rewrite (Hnamed EmptyString) by reflexivity.
    reflexivity.
Defined.

(** A dollar sign that begins no placeholder does not stop the rendering:
    what follows it is rendered as anywhere else. *)
Example render_goes_on_after_lone_dollar :
  render "Pick one" "$5 for $title, ${title} or $$"
  = "$5 for Pick one, Pick one or $"
  /\ render "Pick one" "${title $title" = "${title Pick one"
  /\ render "Pick one" "a $ b ${} $title" = "a $ b ${} Pick one".
Proof. repeat split. Qed.

(** The rendered arguments are what the subprocess is launched with. *)
Example run_shell_renders_arguments :
  trace (snd (_run_shell (exits 0 EmptyString EmptyString) ["a"]
                "Pick one" "zenity"
                (Some ["--list"; "--text=$title"; "$title"; "$$HOME"; "$x"])
                None None " " fresh))
  = [Launch ["zenity"; "--list"; "--text=Pick one"; "Pick one"; "$HOME";
             "$x"] "a"].
Proof. reflexivity. Qed.

(** ** Further properties of the module *)

(** *** Trimming *)

Lemma rstrip_idempotent (s : string) : rstrip (rstrip s) = rstrip s.
Proof.
  induction s as [|c s IH]; [reflexivity|].
  cbn [rstrip]. destruct (rstrip s) as [|d r] eqn:Hr.
  - destruct (isspace c) eqn:Hc; [reflexivity|].
    cbn [rstrip]. now rewrite Hc.
  - cbn [rstrip]. cbn [rstrip] in IH. rewrite IH. reflexivity.
Qed.

Lemma lstrip_rstrip_lstrip (s : string) :
  lstrip (rstrip (lstrip s)) = rstrip (lstrip s).
Proof.
  induction s as [|c s IH]; [reflexivity|].
  cbn [lstrip]. destruct (isspace c) eqn:Hc; [exact IH|].
  cbn [rstrip]. destruct (rstrip s).
  - rewrite Hc. cbn [lstrip]. now rewrite Hc.
  - cbn [lstrip]. now rewrite Hc.
Qed.

Lemma strip_idempotent (s : string) : strip (strip s) = strip s.
Proof.
  unfold strip. now rewrite lstrip_rstrip_lstrip, rstrip_idempotent.
Qed.

(** X1: [prompt] looks the preset up by the trimmed identifier only: white
    space around the identifier changes nothing, in the result or in what
    the call does. *)
Theorem prompt_ignores_identifier_padding (rt : runtime)
  (pickers : list (string * Preset.t))
  (strategies : list (string * strategy_value)) (entries : list string)
  (picker_id prompt_title : string) (silent : bool) (w : world) :
  prompt rt entries (strip picker_id) prompt_title silent w
  = prompt rt entries picker_id prompt_title silent w
  /\ prompt_in rt pickers strategies entries (strip picker_id) prompt_title
       silent w
     = prompt_in rt pickers strategies entries picker_id prompt_title
         silent w.
Proof.
  unfold prompt, prompt_in. now rewrite strip_idempotent.
Qed.

(** X2: [_run_shell] uses the trimmed command only: white space around the
    command changes nothing, in the result, in the command line launched or
    in the error messages. *)
Theorem run_shell_ignores_command_padding (rt : runtime)
  (entries : list string) (title command : string)
  (args : option (list string)) (success ignore : option (list Z))
  (sep : string) (w : world) :
  _run_shell rt entries title (strip command) args success ignore sep w
  = _run_shell rt entries title command args success ignore sep w.
Proof.
  unfold _run_shell. now rewrite strip_idempotent.
Qed.

(** X3: a selection that [_run_shell] returns is never empty and has no
    white space at either end, and it is returned only when the subprocess
    completed with an exit code of the success list: it is then the trimmed
    standard output. *)
Theorem run_shell_selection_is_trimmed_output (rt : runtime)
  (entries : list string) (title command : string)
  (args : option (list string)) (success ignore : option (list Z))
  (sep : string) (w : world) (selected : string) :
  fst (_run_shell rt entries title command args success ignore sep w)
  = Return (Some selected) ->
  selected <> EmptyString
  /\ trimmed selected
  /\ exists proc,
       subprocess_run rt (full_cmd title command args) (join sep entries)
       = Return proc
       /\ int_in (returncode proc) (or_nil success) = true
       /\ selected = strip (stdout proc).
Proof.
  destruct (truthy (strip command)) eqn:Hcmd.
  2: { rewrite run_shell_blank by assumption. discriminate. }
  rewrite run_shell_launched by assumption. cbn [fst].
  unfold shell_outcome.
  destruct (subprocess_run rt _ _) as [proc|e].
  2: { destruct (is_FileNotFoundError e); discriminate. }
  destruct (int_in (returncode proc) (or_nil success)) eqn:Hs.
  2: { destruct (int_in (returncode proc) (or_nil ignore)); discriminate. }
  unfold or_None. destruct (truthy (strip (stdout proc))) eqn:Hout;
    [|discriminate].
  intros [= <-]. split; [now apply truthy_iff|].
  split; [apply strip_idempotent|].
  exists proc. split; [reflexivity|]. split; [exact Hs | reflexivity].
Qed.

Lemma run_shell_selection_is_trimmed_output_witness :
  fst (_run_shell (exits 0 "  libfoo.so.6  " EmptyString) ["a"; "b"]
         "Pick one" "fzf" None (Some [0%Z]) (Some [130%Z]) " " fresh)
  = Return (Some "libfoo.so.6")
  /\ "libfoo.so.6" <> EmptyString /\ trimmed "libfoo.so.6".
Proof.
  split; [reflexivity|].
  destruct (run_shell_selection_is_trimmed_output
              (exits 0 "  libfoo.so.6  " EmptyString) ["a"; "b"]
              "Pick one" "fzf" None (Some [0%Z]) (Some [130%Z]) " " fresh
              "libfoo.so.6" eq_refl) as (Hne & Htrim & _).
  split; assumption.
Defined.

(** X4: when [subprocess.run] raises anything but [FileNotFoundError], the
    shell executor raises a [RuntimeError] whose message names the trimmed
    command and every rendered argument, and holds the original message,
    indented; a one-line original message is in it as it stands. *)
Theorem run_shell_launch_failure_is_wrapped (rt : runtime)
  (entries : list string) (title command : string)
  (args : option (list string)) (success ignore : option (list Z))
  (sep : string) (w : world) (e : exn) :
  strip command <> EmptyString ->
  subprocess_run rt (full_cmd title command args) (join sep entries)
  = Raise e ->
  exn_class e <> FileNotFoundError ->
  exists msg,
    fst (_run_shell rt entries title command args success ignore sep w)
    = Raise (Exn RuntimeError msg)
    /\ (exists header,
          msg = header ++ String LF (indent (exn_str e) "  "))
    /\ contains msg (strip command)
    /\ (forall arg, In arg (or_nil args) -> contains msg (render title arg))
    /\ (single_line (exn_str e) = true -> contains msg (exn_str e)).
Proof.
  intros Hcmd Hrun Hclass. apply truthy_iff in Hcmd.
  rewrite run_shell_launched by assumption. rewrite Hrun.
  cbn [fst shell_outcome].
  assert (Hnot : is_FileNotFoundError e = false).
  { unfold is_FileNotFoundError. destruct (exn_class e); congruence. }
  rewrite Hnot. unfold launch_failure. eexists. split; [reflexivity|].
  split.
  { exists ("Failed to execute shell command: " ++ strip command ++ " "
            ++ join " " (map (render title) (or_nil args)) ++ "'").
    now rewrite !append_assoc. }
  split.
  { apply contains_app_l, contains_app_r, contains_refl. }
  split.
  { intros arg Harg. do 3 apply contains_app_l.
    apply contains_app_r, join_contains, in_map, Harg. }
  intros Hline. do 5 apply contains_app_l. apply contains_cons.
  now apply indent_single_line_contains.
Qed.

Lemma run_shell_launch_failure_is_wrapped_witness :
  exists msg,
    fst (_run_shell
           (scripted (Raise (Exn (OtherException "PermissionError")
                               "[Errno 13] Permission denied: 'fzf'"))
              (Return []))
           ["a"] "Pick one" "fzf" (Some ["--prompt"; "$title"]) None None
           " " fresh)
    = Raise (Exn RuntimeError msg)
    /\ contains msg "[Errno 13] Permission denied: 'fzf'".
Proof.
  destruct (run_shell_launch_failure_is_wrapped
              (scripted (Raise (Exn (OtherException "PermissionError")
                                  "[Errno 13] Permission denied: 'fzf'"))
                 (Return []))
              ["a"] "Pick one" "fzf" (Some ["--prompt"; "$title"]) None None
              " " fresh
              (Exn (OtherException "PermissionError")
                 "[Errno 13] Permission denied: 'fzf'"))
    as (msg & Hres & _ & _ & _ & Hcause).
  - discriminate.
  - reflexivity.
  - discriminate.
  - exists msg. split; [exact Hres | apply Hcause; reflexivity].
Defined.

(** *** The embedded-prompt executor and its client *)

(** With the import and, where needed, the constructor succeeding,
    [_run_pyfzf] leaves the client in the module global and its result is
    decided by the client's answer alone. *)
Lemma run_pyfzf_with_client (rt : runtime) (entries : list string)
  (title : string) (args : option (list string)) (w : world) :
  import_FzfPrompt rt = Return tt ->
  (_pyfzf_prompt w = None -> new_FzfPrompt rt = Return FzfPromptObject) ->
  _run_pyfzf rt entries title args w
  = (match FzfPrompt_prompt rt entries (fzf_options title args) with
     | Return (first :: _) => Return (Some first)
     | Return [] => Return None
     | Raise e => Raise e
     end,
     World (Some FzfPromptObject)
       (trace w
        ++ match _pyfzf_prompt w with
           | None => [FzfConstruct]
           | Some _ => []
           end
        ++ [FzfCall entries (fzf_options title args)])%list).
Proof.
  intros Himport Hnew.
  unfold _run_pyfzf, bind, outside, read_pyfzf_prompt, write_pyfzf_prompt,
    emit, ret.
  rewrite Himport.
  change (shlex_join (match args with None => [] | Some a => a end
                      ++ [title ++ "> "]))
    with (fzf_options title args).
  destruct w as [[[]|] tr]; cbn [_pyfzf_prompt trace] in *.
  - destruct (FzfPrompt_prompt rt entries (fzf_options title args))
      as [[|first rest]|e]; reflexivity.
  - rewrite (Hnew eq_refl). cbn [_pyfzf_prompt trace].
    destruct (FzfPrompt_prompt rt entries (fzf_options title args))
      as [[|first rest]|e]; rewrite <- app_assoc; reflexivity.
Qed.

(** X5: the embedded-prompt executor builds its client once.  After a call
    in which the import and the constructor succeeded, whatever the client
    then answered or raised, the client is in [_pyfzf_prompt], and the next
    call does nothing but call that client: it constructs nothing. *)
Theorem run_pyfzf_builds_client_once (rt : runtime)
  (entries entries' : list string) (title title' : string)
  (args args' : option (list string)) (w : world) :
  import_FzfPrompt rt = Return tt ->
  (_pyfzf_prompt w = None -> new_FzfPrompt rt = Return FzfPromptObject) ->
  _pyfzf_prompt (snd (_run_pyfzf rt entries title args w))
  = Some FzfPromptObject
  /\ trace (snd (_run_pyfzf rt entries' title' args'
                   (snd (_run_pyfzf rt entries title args w))))
     = (trace (snd (_run_pyfzf rt entries title args w))
        ++ [FzfCall entries' (fzf_options title' args')])%list
  /\ count (fun ev => match ev with FzfConstruct => true | _ => false end)
       (trace (snd (_run_pyfzf rt entries' title' args'
                      (snd (_run_pyfzf rt entries title args w)))))
     = count (fun ev => match ev with FzfConstruct => true | _ => false end)
         (trace (snd (_run_pyfzf rt entries title args w))).
Proof.
  intros Himport Hnew.
  rewrite (run_pyfzf_with_client rt entries title args w Himport Hnew).
  cbn [snd].
  rewrite run_pyfzf_with_client by (assumption || discriminate).
  cbn [snd _pyfzf_prompt trace app]. repeat split.
  unfold count. rewrite filter_app. cbn [filter]. now rewrite app_nil_r.
Qed.

Lemma run_pyfzf_builds_client_once_witness :
  trace (snd (_run_pyfzf
                (scripted (Return (Completed 0 EmptyString EmptyString))
                   (Return ["b"]))
                ["c"; "d"] "Again" None
                (snd (_run_pyfzf
                        (scripted
                           (Return (Completed 0 EmptyString EmptyString))
                           (Return ["b"]))
                        ["a"; "b"] "Pick one" None fresh))))
  = [FzfConstruct; FzfCall ["a"; "b"] "'Pick one> '";
     FzfCall ["c"; "d"] "'Again> '"].
Proof.
  apply (run_pyfzf_builds_client_once
           (scripted (Return (Completed 0 EmptyString EmptyString))
              (Return ["b"]))
           ["a"; "b"] ["c"; "d"] "Pick one" "Again" None None fresh).
  - reflexivity.
  - intros _. reflexivity.
Defined.

(** X6: the embedded-prompt executor lets every failure of the library
    through unchanged.  A failing import stops it before anything is done; a
    failing constructor stops it before the client is called and leaves
    [_pyfzf_prompt] empty, so the next call constructs again; an exception
    of the client's [prompt] is the exception of the executor. *)
Theorem run_pyfzf_propagates_failures (rt : runtime)
  (entries : list string) (title : string) (args : option (list string))
  (w : world) (e : exn) :
  (import_FzfPrompt rt = Raise e ->
   _run_pyfzf rt entries title args w = (Raise e, w))
  /\ (import_FzfPrompt rt = Return tt ->
      _pyfzf_prompt w = None ->
      new_FzfPrompt rt = Raise e ->
      _run_pyfzf rt entries title args w
      = (Raise e, World None (trace w ++ [FzfConstruct])))
  /\ (import_FzfPrompt rt = Return tt ->
      (_pyfzf_prompt w = None -> new_FzfPrompt rt = Return FzfPromptObject) ->
      FzfPrompt_prompt rt entries (fzf_options title args) = Raise e ->
      fst (_run_pyfzf rt entries title args w) = Raise e).
Proof.
  split; [|split].
  - intros Himport. unfold _run_pyfzf, bind, outside. now rewrite Himport.
  - intros Himport Hcache Hnew.
    unfold _run_pyfzf, bind, outside, read_pyfzf_prompt, emit.
    rewrite Himport, Hcache. cbn [_pyfzf_prompt trace].
    now rewrite Hnew, Hcache.
  - intros Himport Hnew Hcall.
    rewrite run_pyfzf_with_client by assumption. now rewrite Hcall.
Qed.

Lemma run_pyfzf_propagates_failures_witness :
  _run_pyfzf
    (Runtime (fun _ _ => Return (Completed 0 EmptyString EmptyString))
       (Return tt)
       (Raise (Exn (OtherException "SystemError")
                 "Cannot find 'fzf' installed on PATH."))
       (fun _ _ => Return ["a"]) (fun _ => "{...}"))
    ["a"; "b"] "Pick one" None fresh
  = (Raise (Exn (OtherException "SystemError")
              "Cannot find 'fzf' installed on PATH."),
     World None [FzfConstruct]).
Proof.
  apply (run_pyfzf_propagates_failures
           (Runtime (fun _ _ => Return (Completed 0 EmptyString EmptyString))
              (Return tt)
              (Raise (Exn (OtherException "SystemError")
                        "Cannot find 'fzf' installed on PATH."))
              (fun _ _ => Return ["a"]) (fun _ => "{...}"))
           ["a"; "b"] "Pick one" None fresh
           (Exn (OtherException "SystemError")
              "Cannot find 'fzf' installed on PATH."));
    reflexivity.
Defined.

(** *** The dispatcher and its executors *)

(** X7: when the executor returns, [prompt] returns exactly what the
    executor returned and adds nothing of its own: no diagnostic is printed
    and the world is the one the executor left. *)
Theorem prompt_in_passes_result_through (rt : runtime)
  (pickers : list (string * Preset.t))
  (strategies : list (string * strategy_value)) (entries : list string)
  (picker_id prompt_title : string) (silent : bool) (w w' : world)
  (cfg : Preset.t) (strat : string)
  (executor : list string -> string -> Preset.t -> M (option string))
  (selected : option string) :
  dict_get pickers (strip picker_id) = Some cfg ->
  Preset.strategy cfg = Some (Some strat) ->
  strip strat <> EmptyString ->
  dict_get strategies (strip strat) = Some (Function_ executor) ->
  executor entries prompt_title cfg w = (Return selected, w') ->
  prompt_in rt pickers strategies entries picker_id prompt_title silent w
  = (Return selected, w').
Proof.
  intros Hcfg Hstrat Hname Hexec Hret. unfold prompt_in.
  rewrite Hcfg, Hstrat, bind_ret. apply truthy_iff in Hname. rewrite Hname.
  cbn [negb]. rewrite Hexec. unfold try_except. now rewrite Hret.
Qed.

Lemma prompt_in_passes_result_through_witness :
  prompt (exits 0 "b" EmptyString) ["a"; "b"] "fzf" "Pick one" false fresh
  = (Return (Some "b"),
     World None [Launch ["fzf"; "--cycle"; "--prompt"; "Pick one"] "a b"]).
Proof.
  apply (prompt_in_passes_result_through (exits 0 "b" EmptyString) PICKERS
           (RUN_STRATEGIES (exits 0 "b" EmptyString)) ["a"; "b"] "fzf"
           "Pick one" false fresh
           (World None
              [Launch ["fzf"; "--cycle"; "--prompt"; "Pick one"] "a b"])
           (Preset.Make (Some (Some "shell")) (Some "fzf")
              (Some (Some ["--cycle"; "--prompt"; "$title"]))
              (Some (Some [0%Z])) (Some (Some [130%Z])) (Some " "))
           "shell" (call_run_shell (exits 0 "b" EmptyString)) (Some "b"));
    try reflexivity.
  discriminate.
Defined.

(** X8: a preset that lacks a key an executor requires ([command], [args],
    [success_exit_codes] or [ignore_exit_codes] for the shell executor,
    [args] for the embedded one) makes the call fail with a [TypeError]
    before the executor's body runs: nothing is launched, imported or
    called. *)
Theorem executor_call_needs_required_keys (rt : runtime)
  (entries : list string) (title : string) (cfg : Preset.t) (w : world) :
  ((Preset.command cfg = None \/ Preset.args cfg = None
    \/ Preset.success_exit_codes cfg = None
    \/ Preset.ignore_exit_codes cfg = None) ->
   exists msg,
     call_run_shell rt entries title cfg w = (Raise (Exn TypeError msg), w))
  /\ (Preset.args cfg = None ->
      exists msg,
        call_run_pyfzf rt entries title cfg w
        = (Raise (Exn TypeError msg), w)).
Proof.
  split.
  - intros H. unfold call_run_shell.
    destruct (Preset.command cfg), (Preset.args cfg),
      (Preset.success_exit_codes cfg), (Preset.ignore_exit_codes cfg);
      try (eexists; reflexivity).
    destruct H as [H|[H|[H|H]]]; discriminate H.
  - intros H. unfold call_run_pyfzf. rewrite H. eexists. reflexivity.
Qed.

Lemma executor_call_needs_required_keys_witness :
  prompt_in (exits 0 "b" EmptyString)
    [("mine", Preset.Make (Some (Some "shell")) None (Some None)
                (Some (Some [0%Z])) None None)]
    (RUN_STRATEGIES (exits 0 "b" EmptyString))
    ["a"; "b"] "mine" "Pick one" true fresh
  = (Return None, fresh)
  /\ exists msg,
       call_run_shell (exits 0 "b" EmptyString) ["a"; "b"] "Pick one"
         (Preset.Make (Some (Some "shell")) None (Some None)
            (Some (Some [0%Z])) None None) fresh
       = (Raise (Exn TypeError msg), fresh).
Proof.
  split; [reflexivity|].
  apply (executor_call_needs_required_keys (exits 0 "b" EmptyString)
           ["a"; "b"] "Pick one"
           (Preset.Make (Some (Some "shell")) None (Some None)
              (Some (Some [0%Z])) None None) fresh).
  left. reflexivity.
Defined.

Lemma join_cons (sep x : string) (l : list string) :
  l <> [] -> join sep (x :: l) = x ++ sep ++ join sep l.
Proof. destruct l; [congruence | reflexivity]. Qed.

Lemma join_splits_on_separator (sep a b : string) (xs ys : list string) :
  join sep (xs ++ (a ++ sep ++ b) :: ys) = join sep (xs ++ a :: b :: ys).
Proof.
  induction xs as [|x xs IH].
  - cbn [app]. destruct ys as [|y ys].
    + reflexivity.
    + change (join sep ((a ++ sep ++ b) :: y :: ys))
        with ((a ++ sep ++ b) ++ sep ++ join sep (y :: ys)).
      change (join sep (a :: b :: y :: ys))
        with (a ++ sep ++ b ++ sep ++ join sep (y :: ys)).
      now rewrite !append_assoc.
  - cbn [app]. rewrite !join_cons by (now destruct xs). now rewrite IH.
Qed.

(** X9: the shell executor cannot tell an entry that holds the separator
    from two entries: both give the subprocess the same standard input, so
    the same command line, outcome and result.  With the built-in presets'
    separator, a space, an entry with a space in it reaches the tool as two
    candidates. *)
Theorem run_shell_entry_with_separator_is_split (rt : runtime)
  (xs ys : list string) (a b title command : string)
  (args : option (list string)) (success ignore : option (list Z))
  (sep : string) (w : world) :
  _run_shell rt (xs ++ (a ++ sep ++ b) :: ys) title command args success
    ignore sep w
  = _run_shell rt (xs ++ a :: b :: ys) title command args success ignore
      sep w.
Proof.
  unfold _run_shell. now rewrite join_splits_on_separator.
Qed.

(** *** The built-in presets *)

Lemma prompt_in_dispatch (rt : runtime) (pickers : list (string * Preset.t))
  (strategies : list (string * strategy_value)) (entries : list string)
  (picker_id prompt_title : string) (silent : bool) (w : world)
  (cfg : Preset.t) (strat : string)
  (executor : list string -> string -> Preset.t -> M (option string)) :
  dict_get pickers (strip picker_id) = Some cfg ->
  Preset.strategy cfg = Some (Some strat) ->
  strip strat <> EmptyString ->
  dict_get strategies (strip strat) = Some (Function_ executor) ->
  prompt_in rt pickers strategies entries picker_id prompt_title silent w
  = dispatched rt silent (strip picker_id) (strip strat) prompt_title cfg
      (executor entries prompt_title cfg w).
Proof.
  intros Hcfg Hstrat Hname Hexec. unfold prompt_in.
  rewrite Hcfg, Hstrat, bind_ret. apply truthy_iff in Hname. rewrite Hname.
  cbn [negb]. rewrite Hexec. unfold try_except, dispatched.
  destruct (executor entries prompt_title cfg w) as [[selected|e] w'];
    [reflexivity | now rewrite get_print_then_None].
Qed.

Lemma PICKERS_cases (k : string) (cfg : Preset.t) :
  dict_get PICKERS k = Some cfg ->
  (k = "default" /\ cfg = default_preset)
  \/ (k = "fzf" /\ cfg = fzf_preset)
  \/ (k = "zenity" /\ cfg = zenity_preset).
Proof.
  unfold PICKERS. cbn [dict_get].
  destruct (String.eqb_spec "default" k) as [<-|_].
  { intros [= <-]. auto. }
  destruct (String.eqb_spec "fzf" k) as [<-|_].
  { intros [= <-]. auto. }
  destruct (String.eqb_spec "zenity" k) as [<-|_].
  { intros [= <-]. auto. }
  discriminate.
Qed.

Lemma render_title_placeholder (title : string) :
  render title "$title" = title.
Proof.
  unfold render.
  change "$title" with (String DOLLAR ("title" ++ EmptyString)).
  rewrite (safe_substitute_delimiter _ _ title EmptyString).
  - apply append_nil_r.
  - now rewrite at_delimiter_named.
Qed.

Lemma fzf_full_cmd (title : string) :
  full_cmd title "fzf" (Some ["--cycle"; "--prompt"; "$title"])
  = fzf_cmd title.
Proof.
  unfold full_cmd, fzf_cmd. cbn [or_nil map].
  now rewrite render_title_placeholder.
Qed.

Lemma zenity_full_cmd (title : string) :
  full_cmd title "zenity"
    (Some ["--list"; "--title=nix-alien: Choose a package";
           "--text=$title"; "--column=Libraries"])
  = zenity_cmd title.
Proof.
  unfold full_cmd, zenity_cmd. cbn [or_nil map].
  change "--text=$title" with ("--text=" ++ "$title").
  rewrite (render_plain_prefix title "--text=" "$title") by reflexivity.
  now rewrite render_title_placeholder.
Qed.

(** [prompt] on the two built-in shell presets. *)
Lemma prompt_fzf (rt : runtime) (entries : list string)
  (picker_id title : string) (silent : bool) (w : world) :
  strip picker_id = "fzf" ->
  prompt rt entries picker_id title silent w
  = dispatched rt silent "fzf" "shell" title fzf_preset
      (shell_outcome title "fzf" (Some ["--cycle"; "--prompt"; "$title"])
         (Some [0%Z]) (Some [130%Z])
         (subprocess_run rt (fzf_cmd title) (join " " entries)),
       after w [Launch (fzf_cmd title) (join " " entries)]).
Proof.
  intros Hid. unfold prompt.
  rewrite (prompt_in_dispatch rt PICKERS (RUN_STRATEGIES rt) entries
             picker_id title silent w fzf_preset "shell"
             (call_run_shell rt));
    [ | rewrite Hid; reflexivity | reflexivity | discriminate | reflexivity ].
  rewrite Hid.
  change (call_run_shell rt entries title fzf_preset w)
    with (_run_shell rt entries title "fzf"
            (Some ["--cycle"; "--prompt"; "$title"]) (Some [0%Z])
            (Some [130%Z]) " " w).
  rewrite run_shell_launched by reflexivity.
  now rewrite fzf_full_cmd.
Qed.

Lemma prompt_zenity (rt : runtime) (entries : list string)
  (picker_id title : string) (silent : bool) (w : world) :
  strip picker_id = "zenity" ->
  prompt rt entries picker_id title silent w
  = dispatched rt silent "zenity" "shell" title zenity_preset
      (shell_outcome title "zenity"
         (Some ["--list"; "--title=nix-alien: Choose a package";
                "--text=$title"; "--column=Libraries"])
         (Some [0%Z]) (Some [1%Z])
         (subprocess_run rt (zenity_cmd title) (join " " entries)),
       after w [Launch (zenity_cmd title) (join " " entries)]).
Proof.
  intros Hid. unfold prompt.
  rewrite (prompt_in_dispatch rt PICKERS (RUN_STRATEGIES rt) entries
             picker_id title silent w zenity_preset "shell"
             (call_run_shell rt));
    [ | rewrite Hid; reflexivity | reflexivity | discriminate | reflexivity ].
  rewrite Hid.
  change (call_run_shell rt entries title zenity_preset w)
    with (_run_shell rt entries title "zenity"
            (Some ["--list"; "--title=nix-alien: Choose a package";
                   "--text=$title"; "--column=Libraries"])
            (Some [0%Z]) (Some [1%Z]) " " w).
  rewrite run_shell_launched by reflexivity.
  now rewrite zenity_full_cmd.
Qed.

Lemma prompt_default (rt : runtime) (entries : list string)
  (picker_id title : string) (silent : bool) (w : world) :
  strip picker_id = "default" ->
  prompt rt entries picker_id title silent w
  = dispatched rt silent "default" "pyfzf" title default_preset
      (_run_pyfzf rt entries title (Some ["--cycle"; "--prompt"]) w).
Proof.
  intros Hid. unfold prompt.
  rewrite (prompt_in_dispatch rt PICKERS (RUN_STRATEGIES rt) entries
             picker_id title silent w default_preset "pyfzf"
             (call_run_pyfzf rt));
    [ | rewrite Hid; reflexivity | reflexivity | discriminate | reflexivity ].
  now rewrite Hid.
Qed.

(** X10: with the built-in [fzf] and [zenity] presets, [prompt] launches
    the tool with the title handed over verbatim, as the last argument of
    [fzf] and after [--text=] for [zenity], whatever characters the title
    holds (a placeholder or an escape inside the title is not substituted
    again), and with the entries joined by one space as standard input.
    Nothing else is launched. *)
Theorem prompt_builtin_command_lines (rt : runtime) (entries : list string)
  (picker_id title : string) (silent : bool) (w : world) :
  (strip picker_id = "fzf" ->
   exists evs,
     trace (snd (prompt rt entries picker_id title silent w))
     = (trace w
        ++ Launch ["fzf"; "--cycle"; "--prompt"; title] (join " " entries)
           :: evs)%list
     /\ count is_tool_call evs = 0)
  /\ (strip picker_id = "zenity" ->
      exists evs,
        trace (snd (prompt rt entries picker_id title silent w))
        = (trace w
           ++ Launch (zenity_cmd title) (join " " entries) :: evs)%list
        /\ count is_tool_call evs = 0).
Proof.
  split; intros Hid.
  - rewrite prompt_fzf by assumption. unfold dispatched.
    destruct (shell_outcome _ _ _ _ _ _) as [selected|e].
    + exists []. split; reflexivity.
    + destruct silent.
      * exists []. split; reflexivity.
      * eexists [_]. cbn [snd after trace]. rewrite <- app_assoc.
        split; reflexivity.
  - rewrite prompt_zenity by assumption. unfold dispatched.
    destruct (shell_outcome _ _ _ _ _ _) as [selected|e].
    + exists []. split; reflexivity.
    + destruct silent.
      * exists []. split; reflexivity.
      * eexists [_]. cbn [snd after trace]. rewrite <- app_assoc.
        split; reflexivity.
Qed.

Lemma prompt_builtin_command_lines_witness :
  exists evs,
    trace (snd (prompt (exits 0 "a" EmptyString) ["a"; "b"] " fzf "
                  "cost in $$ for $title" false fresh))
    = Launch ["fzf"; "--cycle"; "--prompt"; "cost in $$ for $title"] "a b"
      :: evs
    /\ count is_tool_call evs = 0.
Proof.
  apply (prompt_builtin_command_lines (exits 0 "a" EmptyString) ["a"; "b"]
           " fzf " "cost in $$ for $title" false fresh).
  reflexivity.
Defined.

(** X11: a preset whose [strategy] is Python's [None] does not get the
    diagnostic about an empty or null strategy: [prompt] raises an
    [AttributeError] to its caller, prints nothing and calls no executor.
    No built-in preset is like that. *)
Theorem prompt_in_null_strategy_raises (rt : runtime)
  (pickers : list (string * Preset.t))
  (strategies : list (string * strategy_value)) (entries : list string)
  (picker_id prompt_title : string) (silent : bool) (w : world)
  (cfg : Preset.t) :
  dict_get pickers (strip picker_id) = Some cfg ->
  Preset.strategy cfg = Some None ->
  prompt_in rt pickers strategies entries picker_id prompt_title silent w
  = (Raise (Exn AttributeError "'NoneType' object has no attribute 'strip'"),
     w)
  /\ forall k cfg', dict_get PICKERS k = Some cfg' ->
                    Preset.strategy cfg' <> Some None.
Proof.
  intros Hcfg Hnull. split.
  - unfold prompt_in. now rewrite Hcfg, Hnull.
  - apply PICKERS_strategies.
Qed.

Lemma prompt_in_null_strategy_raises_witness :
  prompt_in (exits 0 "a" EmptyString)
    [("mine", Preset.Make (Some None) (Some "fzf") None None None None)]
    (RUN_STRATEGIES (exits 0 "a" EmptyString)) ["a"] "mine" "Pick one"
    false fresh
  = (Raise (Exn AttributeError "'NoneType' object has no attribute 'strip'"),
     fresh).
Proof.
  apply (prompt_in_null_strategy_raises (exits 0 "a" EmptyString)
           [("mine", Preset.Make (Some None) (Some "fzf") None None None
                       None)]
           (RUN_STRATEGIES (exits 0 "a" EmptyString)) ["a"] "mine"
           "Pick one" false fresh
           (Preset.Make (Some None) (Some "fzf") None None None None));
    reflexivity.
Defined.

Lemma int_in_singleton (n m : Z) : int_in n [m] = true -> n = m.
Proof.
  unfold int_in. cbn [existsb]. rewrite orb_false_r. apply Z.eqb_eq.
Qed.

Lemma run_pyfzf_selection (rt : runtime) (entries : list string)
  (title : string) (args : option (list string)) (w : world)
  (selected : string) :
  fst (_run_pyfzf rt entries title args w) = Return (Some selected) ->
  exists rest,
    FzfPrompt_prompt rt entries (fzf_options title args)
    = Return (selected :: rest).
Proof.
  unfold _run_pyfzf, bind, outside, read_pyfzf_prompt, write_pyfzf_prompt,
    emit, ret.
  change (shlex_join (match args with None => [] | Some a => a end
                      ++ [title ++ "> "]))
    with (fzf_options title args).
  destruct (import_FzfPrompt rt) as [[]|e]; [|discriminate].
  destruct w as [[p|] tr]; cbn [_pyfzf_prompt trace].
  - destruct (FzfPrompt_prompt rt entries (fzf_options title args))
      as [[|first rest]|e]; try discriminate.
    intros [= <-]. now exists rest.
  - destruct (new_FzfPrompt rt) as [p|e]; [|discriminate].
    cbn [_pyfzf_prompt trace].
    destruct (FzfPrompt_prompt rt entries (fzf_options title args))
      as [[|first rest]|e]; try discriminate.
    intros [= <-]. now exists rest.
Qed.

Lemma dispatched_selection (rt : runtime) (silent : bool)
  (picker_id strat title : string) (cfg : Preset.t)
  (outcome : result (option string) * world) (selected : string) :
  fst (dispatched rt silent picker_id strat title cfg outcome)
  = Return (Some selected) ->
  fst outcome = Return (Some selected).
Proof.
  destruct outcome as [[r|e] w']; cbn [dispatched fst];
    [trivial | discriminate].
Qed.

Lemma shell_outcome_selection (title command : string)
  (args : option (list string)) (code : Z)
  (ignore : option (list Z)) (run : result CompletedProcess)
  (selected : string) :
  shell_outcome title command args (Some [code]) ignore run
  = Return (Some selected) ->
  exists proc,
    run = Return proc /\ returncode proc = code
    /\ selected = strip (stdout proc) /\ selected <> EmptyString.
Proof.
  unfold shell_outcome. destruct run as [proc|e].
  2: { destruct (is_FileNotFoundError e); discriminate. }
  cbn [or_nil].
  destruct (int_in (returncode proc) [code]) eqn:Hcode.
  2: { destruct (int_in (returncode proc) (or_nil ignore)); discriminate. }
  unfold or_None. destruct (truthy (strip (stdout proc))) eqn:Hout;
    [|discriminate].
  intros [= <-]. exists proc. split; [reflexivity|].
  split; [now apply int_in_singleton|].
  split; [reflexivity | now apply truthy_iff].
Qed.

(** X12: a selection [prompt] returns always comes from the tool of the
    preset asked for.  With the default preset it is the first element of
    what the fzf client answered for these entries; with the [fzf] or the
    [zenity] preset the tool was run on these entries, exited with code 0,
    and the selection is its trimmed, non-empty standard output.  No other
    identifier ever gives a selection. *)
Theorem prompt_selection_comes_from_the_tool (rt : runtime)
  (entries : list string) (picker_id title : string) (silent : bool)
  (w : world) (selected : string) :
  fst (prompt rt entries picker_id title silent w) = Return (Some selected) ->
  (strip picker_id = "default"
   /\ exists rest,
        FzfPrompt_prompt rt entries
          (fzf_options title (Some ["--cycle"; "--prompt"]))
        = Return (selected :: rest))
  \/ (strip picker_id = "fzf"
      /\ exists proc,
           subprocess_run rt ["fzf"; "--cycle"; "--prompt"; title]
             (join " " entries) = Return proc
           /\ returncode proc = 0%Z
           /\ selected = strip (stdout proc) /\ selected <> EmptyString)
  \/ (strip picker_id = "zenity"
      /\ exists proc,
           subprocess_run rt (zenity_cmd title) (join " " entries)
           = Return proc
           /\ returncode proc = 0%Z
           /\ selected = strip (stdout proc) /\ selected <> EmptyString).
Proof.
  destruct (dict_get PICKERS (strip picker_id)) as [cfg|] eqn:Hcfg.
  2: { unfold prompt, prompt_in. rewrite Hcfg, get_print_then_None.
       discriminate. }
  apply PICKERS_cases in Hcfg.
  destruct Hcfg as [[Hid _] | [[Hid _] | [Hid _]]]; intros Hsel.
  - left. split; [exact Hid|].
    rewrite prompt_default in Hsel by assumption.
    apply dispatched_selection in Hsel.
    now apply run_pyfzf_selection in Hsel.
  - right. left. split; [exact Hid|].
    rewrite prompt_fzf in Hsel by assumption.
    apply dispatched_selection in Hsel. cbn [fst] in Hsel.
    now apply shell_outcome_selection in Hsel.
  - right. right. split; [exact Hid|].
    rewrite prompt_zenity in Hsel by assumption.
    apply dispatched_selection in Hsel. cbn [fst] in Hsel.
    now apply shell_outcome_selection in Hsel.
Qed.

Lemma prompt_selection_comes_from_the_tool_witness :
  fst (prompt (exits 0 " b " EmptyString) ["a"; "b"] "zenity" "Pick one"
         true fresh)
  = Return (Some "b")
  /\ exists proc,
       subprocess_run (exits 0 " b " EmptyString) (zenity_cmd "Pick one")
         (join " " ["a"; "b"]) = Return proc
       /\ returncode proc = 0%Z
       /\ "b" = strip (stdout proc) /\ "b" <> EmptyString.
Proof.
  split; [reflexivity|].
  destruct (prompt_selection_comes_from_the_tool (exits 0 " b " EmptyString)
              ["a"; "b"] "zenity" "Pick one" true fresh "b" eq_refl)
    as [[Hid _] | [[Hid _] | [_ Hproc]]].
  - discriminate Hid.
  - discriminate Hid.
  - exact Hproc.
Defined.

Lemma count_app (p : event -> bool) (a b : list event) :
  count p (a ++ b) = count p a + count p b.
Proof. unfold count. now rewrite filter_app, length_app. Qed.

(** What [_run_pyfzf] does to the world: it appends at most a construction
    and one call of the client, prints nothing, and keeps a client that is
    already there. *)
Lemma run_pyfzf_footprint (rt : runtime) (entries : list string)
  (title : string) (args : option (list string)) (w : world) :
  exists evs,
    trace (snd (_run_pyfzf rt entries title args w)) = (trace w ++ evs)%list
    /\ count is_tool_call evs <= 1
    /\ count is_Stderr evs = 0
    /\ (_pyfzf_prompt w <> None ->
        _pyfzf_prompt (snd (_run_pyfzf rt entries title args w))
        = _pyfzf_prompt w).
Proof.
  unfold _run_pyfzf, bind, outside, read_pyfzf_prompt, write_pyfzf_prompt,
    emit, ret.
  destruct (import_FzfPrompt rt) as [[]|e].
  2: { exists []. cbn [snd]. rewrite app_nil_r. repeat split. cbn. lia. }
  destruct w as [[[]|] tr]; cbn [_pyfzf_prompt trace].
  - eexists [_].
    destruct (FzfPrompt_prompt rt entries _) as [[|first rest]|e];
      cbn [snd trace _pyfzf_prompt]; repeat split; cbn; lia.
  - destruct (new_FzfPrompt rt) as [[]|e].
    + eexists [_; _]. cbn [_pyfzf_prompt trace].
      destruct (FzfPrompt_prompt rt entries _) as [[|first rest]|e];
        cbn [snd trace _pyfzf_prompt]; rewrite <- app_assoc;
        repeat split; try (cbn; lia); try (intros H; congruence).
    + eexists [_]. cbn [snd trace _pyfzf_prompt].
      repeat split; try (cbn; lia); try (intros H; congruence).
Qed.

(** What the dispatcher adds to the executor's footprint. *)
Lemma dispatched_footprint (rt : runtime) (silent : bool)
  (picker_id strat title : string) (cfg : Preset.t) (w : world)
  (outcome : result (option string) * world) (evs : list event) :
  trace (snd outcome) = (trace w ++ evs)%list ->
  count is_tool_call evs <= 1 ->
  count is_Stderr evs = 0 ->
  (_pyfzf_prompt w <> None -> _pyfzf_prompt (snd outcome) = _pyfzf_prompt w) ->
  exists evs',
    trace (snd (dispatched rt silent picker_id strat title cfg outcome))
    = (trace w ++ evs')%list
    /\ count is_tool_call evs' <= 1
    /\ count is_Stderr evs' <= 1
    /\ (silent = true -> count is_Stderr evs' = 0)
    /\ (forall selected,
          fst (dispatched rt silent picker_id strat title cfg outcome)
          = Return (Some selected) ->
          count is_Stderr evs' = 0)
    /\ (_pyfzf_prompt w <> None ->
        _pyfzf_prompt
          (snd (dispatched rt silent picker_id strat title cfg outcome))
        = _pyfzf_prompt w).
Proof.
  intros Htrace Htool Hquiet Hcache.
  destruct outcome as [[r|e] w']; cbn [dispatched fst snd] in *.
  - exists evs. repeat split; auto; lia.
  - destruct silent.
    + exists evs. repeat split; auto; lia.
    + eexists (evs ++ [Stderr _])%list.
      cbn [after trace _pyfzf_prompt]. rewrite Htrace, <- app_assoc.
      split; [reflexivity|]. rewrite !count_app. cbn [count filter
        is_tool_call is_Stderr List.length].
      repeat split; try lia; try discriminate. exact Hcache.
Qed.

(** X13: what one call of [prompt] does, whatever the identifier, the
    runtime and the outcome.  It only appends to the trace; it calls the
    selection tool at most once (one subprocess or one call of the fzf
    client); it prints at most one diagnostic, none with the silence flag
    set and none when it returns a selection; and it never drops a client
    that is stored in [_pyfzf_prompt]. *)
Theorem prompt_footprint (rt : runtime) (entries : list string)
  (picker_id title : string) (silent : bool) (w : world) :
  exists evs,
    trace (snd (prompt rt entries picker_id title silent w))
    = (trace w ++ evs)%list
    /\ count is_tool_call evs <= 1
    /\ count is_Stderr evs <= 1
    /\ (silent = true -> count is_Stderr evs = 0)
    /\ (forall selected,
          fst (prompt rt entries picker_id title silent w)
          = Return (Some selected) ->
          count is_Stderr evs = 0)
    /\ (_pyfzf_prompt w <> None ->
        _pyfzf_prompt (snd (prompt rt entries picker_id title silent w))
        = _pyfzf_prompt w).
Proof.
  destruct (dict_get PICKERS (strip picker_id)) as [cfg|] eqn:Hcfg.
  2: { unfold prompt, prompt_in. rewrite Hcfg, get_print_then_None.
       destruct silent.
       - exists []. cbn [fst snd]. rewrite app_nil_r.
         repeat split; try (cbn; lia); try discriminate.
       - eexists [_]. cbn [fst snd after trace _pyfzf_prompt].
         repeat split; try (cbn; lia); try discriminate. }
  apply PICKERS_cases in Hcfg.
  destruct Hcfg as [[Hid _] | [[Hid _] | [Hid _]]].
  - rewrite prompt_default by assumption.
    destruct (run_pyfzf_footprint rt entries title
                (Some ["--cycle"; "--prompt"]) w)
      as (evs & Htrace & Htool & Hquiet & Hcache).
    now apply (dispatched_footprint _ _ _ _ _ _ w _ evs).
  - rewrite prompt_fzf by assumption.
    apply (dispatched_footprint _ _ _ _ _ _ w _
             [Launch (fzf_cmd title) (join " " entries)]);
      try reflexivity; try (cbn; lia).
  - rewrite prompt_zenity by assumption.
    apply (dispatched_footprint _ _ _ _ _ _ w _
             [Launch (zenity_cmd title) (join " " entries)]);
      try reflexivity; try (cbn; lia).
Qed.

(** X14: in the option string of the embedded-prompt executor every extra
    argument is quoted on its own, and the prompt text, the title followed
    by [> ], always comes last as one word in single quotes, a single quote
    inside the title being escaped: no title, whatever it holds, adds
    options of its own. *)
Theorem run_pyfzf_prompt_text_is_one_quoted_word (title : string)
  (args : option (list string)) :
  fzf_options title args
  = join " "
      (map quote (or_nil args)
       ++ [String SQUOTE
             (replace_char SQUOTE quote_escape (title ++ "> ") ++ "'")]).
Proof.
  unfold fzf_options, shlex_join. rewrite map_app. cbn [map].
  unfold quote at 2.
  assert (Htruthy : truthy (title ++ "> ") = true) by now destruct title.
  assert (Hunsafe : all_chars is_safe (title ++ "> ") = false).
  { rewrite all_chars_app. apply andb_false_r. }
  now rewrite Htruthy, Hunsafe.
Qed.

Example run_pyfzf_quotes_title :
  fzf_options "it's mine" (Some ["--cycle"; "--prompt"])
  = "--cycle --prompt "
    ++ String SQUOTE ("it" ++ quote_escape ++ "s mine> '").
Proof. reflexivity. Qed.
